(** * Energy monitoring API: ingestion, meter listing and readings retrieval

    A shallow embedding of [main.py]: the three tables of the SQLite store,
    the ingestion handler [receive_meter_data] and the two query handlers
    [get_meters] and [get_meter_readings], with the library calls they rely
    on ([datetime.fromisoformat], [strftime], SQLite's [datetime('now', ...)])
    modelled next to them, as CPython 3.11 on the GNU C library and SQLite
    3.40 behave. *)

From Stdlib Require Import PrimFloat ZArith String Ascii Lia.
From stdpp Require Import gmap strings list sorting.

Set Warnings "-register-all,-inexact-float".

Local Open Scope string_scope.
Local Open Scope Z_scope.

(** ** Calendar arithmetic (proleptic Gregorian, as Python and SQLite use) *)

Module Calendar.

Definition is_leap (y : Z) : bool :=
  ((y mod 4 =? 0) && negb (y mod 100 =? 0)) || (y mod 400 =? 0).

Definition days_in_month (y m : Z) : Z :=
  if m =? 2 then (if is_leap y then 29 else 28)
  else if (m =? 4) || (m =? 6) || (m =? 9) || (m =? 11) then 30
  else 31.

(** Days from 1970-01-01 to the civil date [y-m-d]. *)
Definition days_from_civil (y m d : Z) : Z :=
  let y' := if m <=? 2 then y - 1 else y in
  let era := y' / 400 in
  let yoe := y' - era * 400 in
  let mp := (m + 9) mod 12 in
  let doy := (153 * mp + 2) / 5 + d - 1 in
  let doe := yoe * 365 + yoe / 4 - yoe / 100 + doy in
  era * 146097 + doe - 719468.

(** The civil date of a day number counted from 1970-01-01. *)
Definition civil_from_days (z : Z) : Z * Z * Z :=
  let z' := z + 719468 in
  let era := z' / 146097 in
  let doe := z' - era * 146097 in
  let yoe := (doe - doe / 1460 + doe / 36524 - doe / 146096) / 365 in
  let doy := doe - (365 * yoe + yoe / 4 - yoe / 100) in
  let mp := (5 * doy + 2) / 153 in
  let d := doy - (153 * mp + 2) / 5 + 1 in
  let m := if mp <? 10 then mp + 3 else mp - 9 in
  let y := yoe + era * 400 in
  (if m <=? 2 then y + 1 else y, m, d).

End Calendar.

(** ** Decimal fields of fixed width *)

Definition digit_char (d : Z) : ascii :=
  ascii_of_nat (48 + Z.to_nat d).

Definition digit_val (c : ascii) : option Z :=
  let n := Z.of_nat (nat_of_ascii c) in
  if (48 <=? n) && (n <=? 57) then Some (n - 48) else None.

(** [fmt_digits n v]: the [n] low decimal digits of [v], most significant
    first, zero padded (C's [%0nd] for [0 <= v < 10^n]). *)
Fixpoint fmt_digits (n : nat) (v : Z) : string :=
  match n with
  | O => ""
  | S k => String (digit_char ((v / 10 ^ Z.of_nat k) mod 10)) (fmt_digits k v)
  end.

(** [parse_digits n s acc]: read exactly [n] decimal digits off the front of
    [s]. *)
Fixpoint parse_digits (n : nat) (s : string) (acc : Z) : option (Z * string) :=
  match n with
  | O => Some (acc, s)
  | S k =>
      match s with
      | String c r =>
          match digit_val c with
          | Some d => parse_digits k r (acc * 10 + d)
          | None => None
          end
      | EmptyString => None
      end
  end.

(** The number of decimal digits of [v] (at least one). *)
Fixpoint decimal_width (fuel : nat) (v : Z) : nat :=
  match fuel with
  | O => 1
  | S f => if v <? 10 then 1%nat else S (decimal_width f (v / 10))
  end.

(** [v] in decimal, without padding (C's [%d] for [0 <= v]). *)
Definition fmt_decimal (v : Z) : string :=
  fmt_digits (decimal_width 30 v) v.

(** [str(z)] for a Python int. *)
Definition fmt_int (z : Z) : string :=
  if z <? 0 then "-" +:+ fmt_decimal (- z) else fmt_decimal z.

(** ** Python's [datetime] *)

Record datetime := mk_datetime {
  year : Z; month : Z; day : Z;
  hour : Z; minute : Z; second : Z; microsecond : Z;
  (** [tzinfo]: [None] for a naive value, else the UTC offset in
      microseconds. *)
  tzinfo : option Z
}.

(** The range checks of the [datetime] and [timezone] constructors. *)
Definition check_fields (dt : datetime) : bool :=
  (1 <=? year dt) && (year dt <=? 9999) &&
  (1 <=? month dt) && (month dt <=? 12) &&
  (1 <=? day dt) && (day dt <=? Calendar.days_in_month (year dt) (month dt)) &&
  (0 <=? hour dt) && (hour dt <=? 23) &&
  (0 <=? minute dt) && (minute dt <=? 59) &&
  (0 <=? second dt) && (second dt <=? 59) &&
  (0 <=? microsecond dt) && (microsecond dt <=? 999999) &&
  match tzinfo dt with
  | None => true
  | Some off => (-86400000000 <? off) && (off <? 86400000000)
  end.

(** *** [datetime.fromisoformat]

    The parser of CPython 3.11 ([Modules/_datetimemodule.c]), which works on
    the UTF-8 bytes of the string through [char] pointers. A pointer is
    modelled by the rest of the string it points at. *)

(** [*p]: the byte under the pointer; behind the last byte of the string
    stands the terminating NUL. *)
Definition peek (p : string) : ascii :=
  match p with
  | String c _ => c
  | EmptyString => "000"%char
  end.

(** [p + 1]. *)
Definition advance (p : string) : string :=
  match p with
  | String _ r => r
  | EmptyString => EmptyString
  end.

(** [p + n]. *)
Fixpoint advance_by (n : nat) (p : string) : string :=
  match n with
  | O => p
  | S k => advance_by k (advance p)
  end.

Definition is_digit (c : ascii) : bool :=
  match digit_val c with
  | Some _ => true
  | None => false
  end.

(** The number of digits [p] starts with. *)
Fixpoint count_digits (p : string) : nat :=
  match p with
  | String c r => if is_digit c then S (count_digits r) else O
  | EmptyString => O
  end.

(** [_find_isoformat_datetime_separator]: where the date ends, from the
    bytes at 4, 5, 8 and 10; [None] is its [-1]. The date is [YYYY-MM-DD]
    (10), [YYYYMMDD] (8), [YYYY-Www] (8), [YYYYWww] (7), [YYYY-Www-D] (10)
    or [YYYYWwwD] (8). *)
Definition find_isoformat_datetime_separator (s : string) : option nat :=
  let len := String.length s in
  let byte i := peek (advance_by i s) in
  if (len =? 7)%nat then Some 7%nat
  else if Ascii.eqb (byte 4%nat) "-" then
    if Ascii.eqb (byte 5%nat) "W" then
      if (len <? 8)%nat then None
      else if (8 <? len)%nat && Ascii.eqb (byte 8%nat) "-" then
        if (len =? 9)%nat then None
        else if (10 <? len)%nat && is_digit (byte 10%nat) then Some 8%nat
        else Some 10%nat
      else Some 8%nat
    else Some 10%nat
  else if Ascii.eqb (byte 4%nat) "W" then
    let idx := (7 + count_digits (advance_by 7 s))%nat in
    if (idx <? 9)%nat then Some idx
    else if Nat.even idx then Some 7%nat
    else Some 8%nat
  else Some 8%nat.

(** [days_before_year], with the division of C (towards zero). *)
Definition days_before_year (y : Z) : Z :=
  let y1 := y - 1 in
  y1 * 365 + y1 ÷ 4 - y1 ÷ 100 + y1 ÷ 400.

(** [ord_to_ymd]: the date of a day number counted from 0001-01-01 as day 1.
    A day number below 1 is reached from a week date of the year 0 only;
    for these the C code leaves the year at 1 and a month below 1, which
    stands here as month 0. *)
Definition ord_to_ymd (ordinal : Z) : Z * Z * Z :=
  if ordinal <? 1 then (1, 0, 0)
  else Calendar.civil_from_days (ordinal - 719163).

(** [iso_to_ymd]: the date of day [iso_day] of ISO week [iso_week] of
    [iso_year]; [None] for a week or a day out of range. *)
Definition iso_to_ymd (iso_year iso_week iso_day : Z) : option (Z * Z * Z) :=
  let first_day := days_before_year iso_year + 1 in
  (* 0 if 1/1 is a Monday, 1 if a Tuesday, ... *)
  let first_weekday := Z.rem (first_day + 6) 7 in
  if ((iso_week <=? 0) || (53 <=? iso_week)) &&
     negb ((iso_week =? 53) &&
           ((first_weekday =? 3) ||
            ((first_weekday =? 2) && Calendar.is_leap iso_year)))
  then None
  else if (iso_day <=? 0) || (8 <=? iso_day) then None
  else
    let week1_monday :=
      if 3 <? first_weekday then first_day - first_weekday + 7
      else first_day - first_weekday in
    Some (ord_to_ymd (week1_monday + (iso_week - 1) * 7 + iso_day - 1)).

(** [parse_isoformat_date]: the date that ends at byte [len]. *)
Definition parse_isoformat_date (s : string) (len : nat) : option (Z * Z * Z) :=
  match parse_digits 4 s 0 with
  | None => None
  | Some (y, p) =>
      let uses_separator := Ascii.eqb (peek p) "-" in
      let p := if uses_separator then advance p else p in
      if Ascii.eqb (peek p) "W" then
        match parse_digits 2 (advance p) 0 with
        | None => None
        | Some (iso_week, p) =>
            if ((if uses_separator then 8 else 7) <? len)%nat then
              if uses_separator && negb (Ascii.eqb (peek p) "-") then None
              else
                match parse_digits 1 (if uses_separator then advance p else p) 0 with
                | None => None
                | Some (iso_day, _) => iso_to_ymd y iso_week iso_day
                end
            else iso_to_ymd y iso_week 1
        end
      else
        match parse_digits 2 p 0 with
        | None => None
        | Some (m, p) =>
            if uses_separator && negb (Ascii.eqb (peek p) "-") then None
            else
              match parse_digits 2 (if uses_separator then advance p else p) 0 with
              | None => None
              | Some (d, _) => Some (y, m, d)
              end
        end
  end.

(** The digits that are cut off a long fraction. *)
Fixpoint skip_digits (p : string) : string :=
  match p with
  | String c r => if is_digit c then skip_digits r else p
  | EmptyString => EmptyString
  end.

(** The end of [parse_hh_mm_ss_ff]: the fraction, up to six digits of the
    [n] bytes that are left (at least one), further digits dropped. The
    boolean tells whether a byte other than NUL follows. *)
Definition parse_fraction (p : string) (n : Z) (vals : list Z)
    : option (list Z * Z * bool) :=
  let to_parse := Z.to_nat (Z.min 6 n) in
  match parse_digits to_parse p 0 with
  | None => None
  | Some (v, p1) =>
      Some (vals, v * 10 ^ (6 - Z.of_nat to_parse),
            negb (Ascii.eqb (peek (skip_digits p1)) "000"))
  end.

(** The loop of [parse_hh_mm_ss_ff] with [k] components to go: two digits
    and the byte after them; [n] is the distance of [p] from the end of the
    part that is parsed. Whether colons are used is settled after the first
    component. *)
Fixpoint parse_components (k : nat) (first has_separator : bool) (p : string) (n : Z)
    (vals : list Z) : option (list Z * Z * bool) :=
  match k with
  | O => parse_fraction p n vals
  | S k' =>
      match parse_digits 2 p 0 with
      | None => None
      | Some (v, p1) =>
          let c := peek p1 in
          let has_separator := if first then Ascii.eqb c ":" else has_separator in
          if n - 3 <=? 0 then Some ((vals ++ [v])%list, 0, negb (Ascii.eqb c "000"))
          else if has_separator && Ascii.eqb c ":"
          then parse_components k' false has_separator (advance p1) (n - 3) (vals ++ [v])%list
          else if Ascii.eqb c "." || Ascii.eqb c ","
          then parse_fraction (advance p1) (n - 3) (vals ++ [v])%list
          else if negb has_separator
          then parse_components k' false has_separator p1 (n - 2) (vals ++ [v])%list
          else None
      end
  end.

(** [parse_hh_mm_ss_ff]: [HH[:MM[:SS[.f+]]]] or [HH[MM[SS[.f+]]]] in the
    first [n] bytes of [p]; hour, minute, second and microsecond, and
    whether the parse stopped before a byte other than NUL. *)
Definition parse_hh_mm_ss_ff (p : string) (n : Z) : option (Z * Z * Z * Z * bool) :=
  match parse_components 3 true true p n [] with
  | None => None
  | Some (vals, us, more) => Some (nth 0 vals 0, nth 1 vals 0, nth 2 vals 0, us, more)
  end.

Definition is_tz_char (c : ascii) : bool :=
  Ascii.eqb c "Z" || Ascii.eqb c "+" || Ascii.eqb c "-".

(** The position of the first [Z], [+] or [-] of [p], its length if it
    has none. *)
Fixpoint find_tz (p : string) : nat :=
  match p with
  | String c r => if is_tz_char c then O else S (find_tz r)
  | EmptyString => O
  end.

(** [parse_isoformat_time] with [tzinfo_from_isoformat_results]: the time of
    day up to the first [Z], [+] or [-], then the UTC offset, in
    microseconds. What is left over when the time of day has been read is
    an error only when no offset follows; an offset of zero seconds is UTC,
    whatever its microseconds. *)
Definition parse_isoformat_time (s : string) : option (Z * Z * Z * Z * option Z) :=
  let tz := find_tz s in
  match parse_hh_mm_ss_ff s (Z.of_nat tz) with
  | None => None
  | Some (h, mi, sec, us, more) =>
      if (tz =? String.length s)%nat then
        if more then None else Some (h, mi, sec, us, None)
      else
        let q := advance_by tz s in
        if Ascii.eqb (peek q) "Z" then
          if Ascii.eqb (peek (advance q)) "000" then Some (h, mi, sec, us, Some 0)
          else None
        else
          let tzsign := if Ascii.eqb (peek q) "-" then -1 else 1 in
          match parse_hh_mm_ss_ff (advance q) (Z.of_nat (String.length (advance q))) with
          | Some (tzh, tzm, tzs, tzus, false) =>
              let tzoffset := tzh * 3600 + tzm * 60 + tzs in
              Some (h, mi, sec, us,
                    Some (if tzoffset =? 0 then 0
                          else tzsign * (tzoffset * 1000000 + tzus)))
          | _ => None
          end
  end.

(** The bytes of the UTF-8 character that starts with [c]. *)
Definition utf8_width (c : ascii) : nat :=
  let n := Z.of_nat (nat_of_ascii c) in
  if Z.land n 128 =? 0 then 1%nat
  else if Z.land n 240 =? 224 then 3%nat
  else if Z.land n 240 =? 240 then 4%nat
  else 2%nat.

(** The fields [datetime.fromisoformat] reads off [s], before the
    constructors check their ranges: the date, then, if the string goes on,
    one character of any kind and the time. [None] stands for a string it
    cannot read. *)
Definition parse_isoformat (s : string) : option datetime :=
  match find_isoformat_datetime_separator s with
  | None => None
  | Some sep =>
      match parse_isoformat_date s sep with
      | None => None
      | Some (y, m, d) =>
          if (sep <? String.length s)%nat then
            let p := advance_by sep s in
            match parse_isoformat_time (advance_by (utf8_width (peek p)) p) with
            | Some (h, mi, sec, us, tz) => Some (mk_datetime y m d h mi sec us tz)
            | None => None
            end
          else Some (mk_datetime y m d 0 0 0 0 None)
      end
  end.

(** [datetime.fromisoformat]: [None] stands for the [ValueError] it raises. *)
Definition fromisoformat (s : string) : option datetime :=
  match parse_isoformat s with
  | Some dt => if check_fields dt then Some dt else None
  | None => None
  end.

(** [dt.strftime("%Y-%m-%d %H:%M:%S")]: the fields of [dt] as they stand;
    neither [microsecond] nor [tzinfo] is consulted by these directives.
    [%Y] is the year in decimal as the GNU C library writes it, without
    leading zeros: year 999 comes out as [999], not [0999]. *)
Definition strftime (dt : datetime) : string :=
  fmt_decimal (year dt) +:+ "-" +:+ fmt_digits 2 (month dt) +:+ "-" +:+
  fmt_digits 2 (day dt) +:+ " " +:+ fmt_digits 2 (hour dt) +:+ ":" +:+
  fmt_digits 2 (minute dt) +:+ ":" +:+ fmt_digits 2 (second dt).

(** The fixed-width text ["YYYY-MM-DD HH:MM:SS"] of the fields of [dt]. *)
Definition iso_seconds (dt : datetime) : string :=
  fmt_digits 4 (year dt) +:+ "-" +:+ fmt_digits 2 (month dt) +:+ "-" +:+
  fmt_digits 2 (day dt) +:+ " " +:+ fmt_digits 2 (hour dt) +:+ ":" +:+
  fmt_digits 2 (minute dt) +:+ ":" +:+ fmt_digits 2 (second dt).

(** [s.replace("Z", "+00:00")]: every occurrence is replaced. *)
Fixpoint replace_Z (s : string) : string :=
  match s with
  | EmptyString => EmptyString
  | String c r =>
      if Ascii.eqb c "Z" then "+00:00" +:+ replace_Z r
      else String c (replace_Z r)
  end.

(** Microseconds from 1970-01-01T00:00:00 to the wall-clock fields of [dt],
    the offset left aside. *)
Definition wall_clock_us (dt : datetime) : Z :=
  ((Calendar.days_from_civil (year dt) (month dt) (day dt) * 86400
    + hour dt * 3600 + minute dt * 60 + second dt) * 1000000)
  + microsecond dt.

(** The instant an aware [dt] denotes, in microseconds since the epoch
    (UTC = local time - offset); a naive one denotes none. *)
Definition instant_us (dt : datetime) : option Z :=
  match tzinfo dt with
  | Some off => Some (wall_clock_us dt - off)
  | None => None
  end.

(** The instant a stored ["YYYY-MM-DD HH:MM:SS"] text denotes when it is read
    as UTC, which is how the readings query reads it. *)
Definition stored_instant_us (ts : string) : option Z :=
  match fromisoformat ts with
  | Some dt => Some (wall_clock_us dt)
  | None => None
  end.

(** ** Python values and exceptions *)

(** The values the handlers build and return: [None], numbers, strings,
    lists and dict literals (items in insertion order). *)
Inductive pyval :=
| PyNone
| PyBool (b : bool)
| PyInt (z : Z)
| PyFloat (f : float)
| PyStr (s : string)
| PyList (l : list pyval)
| PyDict (items : list (string * pyval)).

Fixpoint assoc {A} (k : string) (items : list (string * A)) : option A :=
  match items with
  | [] => None
  | (k', v) :: rest => if String.eqb k' k then Some v else assoc k rest
  end.

(** [d[k]] on a dict value. *)
Definition py_get (k : string) (v : pyval) : option pyval :=
  match v with
  | PyDict items => assoc k items
  | _ => None
  end.

(** [bool(v)]. *)
Definition py_bool (v : pyval) : bool :=
  match v with
  | PyNone => false
  | PyBool b => b
  | PyInt z => negb (z =? 0)
  | PyFloat f => negb (PrimFloat.eqb f 0%float)
  | PyStr s => negb (String.eqb s "")
  | PyList l => match l with [] => false | _ => true end
  | PyDict items => match items with [] => false | _ => true end
  end.

Inductive exn :=
| ValueError (msg : string)
| SqliteError (msg : string).

(** [str(e)]. *)
Definition str (e : exn) : string :=
  match e with
  | ValueError msg => msg
  | SqliteError msg => msg
  end.

Inductive result (A : Type) :=
| Ok (a : A)
| Raise (e : exn).
Arguments Ok {A} a.
Arguments Raise {A} e.

(** ** The request payload *)

(** [Dict[str, Optional[float]]]. *)
Abbreviation pydict := (gmap string (option float)).

(** [d.get(k)]: [None] for a missing key, and for a key bound to [None]. *)
Definition dict_get (d : pydict) (k : string) : option float :=
  match d !! k with
  | Some v => v
  | None => None
  end.

(** [d.get(k) if d else None] for an optional mapping: a missing mapping and
    an empty one are both falsy. *)
Definition opt_dict_get (d : option pydict) (k : string) : option float :=
  match d with
  | Some m => if decide (m = ∅) then None else dict_get m k
  | None => None
  end.

Record MeterData := mk_MeterData {
  meter_id : string;
  timestamp : string;
  location : string;
  voltages : pydict;
  currents : pydict;
  power : pydict;
  power_factors : pydict;
  frequency : option float;
  reactive_power : option pydict;
  apparent_power : option pydict
}.

(** ** The store: three tables *)

Inductive sqlval :=
| SqlNull
| SqlInt (z : Z)
| SqlReal (f : float)
| SqlText (s : string).

(** What binding a Python float (or [None]) to a REAL column stores: SQLite
    takes a NaN as NULL, and keeps a float that equals an integer in integer
    form, so that negative zero reads back as 0.0; every other value comes
    back as it went in. *)
Definition sqlite_real (v : option float) : option float :=
  match v with
  | None => None
  | Some f =>
      if PrimFloat.is_nan f then None
      else if PrimFloat.eqb f 0%float then Some 0%float
      else Some f
  end.

(** Row of [meters]. *)
Record Meter := mk_Meter {
  m_id : string;
  m_description : option string;
  m_created_at : option string;
  m_is_active : option bool
}.

(** Row of [meter_readings]; the columns in the order of the CREATE TABLE. *)
Record MeterReading := mk_MeterReading {
  r_id : Z;
  r_meter_id : string;
  r_location : string;
  r_timestamp : string;
  voltage_r : option float; voltage_y : option float; voltage_b : option float;
  voltage_avg : option float;
  voltage_ry : option float; voltage_yb : option float; voltage_br : option float;
  current_r : option float; current_y : option float; current_b : option float;
  current_n : option float;
  power_r : option float; power_y : option float; power_b : option float;
  power_total : option float;
  reactive_power_r : option float; reactive_power_y : option float;
  reactive_power_b : option float; reactive_power_total : option float;
  apparent_power_r : option float; apparent_power_y : option float;
  apparent_power_b : option float; apparent_power_total : option float;
  power_factor_r : option float; power_factor_y : option float;
  power_factor_b : option float; power_factor_avg : option float;
  r_frequency : option float
}.

(** Row of [meter_status]. *)
Record MeterStatus := mk_MeterStatus {
  s_meter_id : string;
  s_online : option bool;
  s_last_update : option string;
  s_created_at : option string
}.

Record Store := mk_Store {
  meters : list Meter;
  meter_readings : list MeterReading;
  (** the AUTOINCREMENT counter of [meter_readings] *)
  readings_seq : Z;
  meter_status : list MeterStatus
}.

Definition empty_store : Store := mk_Store [] [] 0 [].

(** ** SQLite's clock functions *)

(** SQLite's rendering of the instant [t] (seconds since the epoch, UTC) as
    ["YYYY-MM-DD HH:MM:SS"]; NULL outside the Julian day range it supports
    (-4713-11-24 12:00:00 to 9999-12-31 23:59:59). *)
Definition sqlite_datetime (t : Z) : option string :=
  if (t <? -210866760000) || (253402300799 <? t) then None
  else
    let '(y, m, d) := Calendar.civil_from_days (t / 86400) in
    let sod := t mod 86400 in
    Some ((if y <? 0 then "-" +:+ fmt_digits 4 (- y) else fmt_digits 4 y) +:+
          "-" +:+ fmt_digits 2 m +:+ "-" +:+ fmt_digits 2 d +:+ " " +:+
          fmt_digits 2 (sod / 3600) +:+ ":" +:+
          fmt_digits 2 ((sod / 60) mod 60) +:+ ":" +:+
          fmt_digits 2 (sod mod 60)).

(** [datetime('now', f'-{hours} hours')] at store time [now]. For a negative
    [hours] the f-string yields a text such as ["--5 hours"], which is no
    modifier, and SQLite answers NULL. *)
Definition datetime_now_minus_hours (now hours : Z) : option string :=
  if hours <? 0 then None else sqlite_datetime (now - hours * 3600).

(** ** What each call sees of its environment *)

(** The [sqlite3] calls of a handler, any of which may raise. *)
Inductive stage := Connect | InsertReading | UpsertStatus | Commit | Select.

Record Env := mk_Env {
  (** what [datetime.utcnow()] returns during the call *)
  utcnow : datetime;
  (** the store's clock, seconds since the epoch *)
  db_now : Z;
  (** [faults st = Some msg]: the [sqlite3] call at [st] raises with [msg] *)
  faults : stage -> option string
}.

Definition no_faults : stage -> option string := fun _ => None.

(** ** A connection: committed state and the open transaction *)

Record Session := mk_Session {
  (** what the database file holds *)
  committed : Store;
  (** what this connection sees: [committed] and its own pending writes *)
  working : Store
}.

Definition M (A : Type) : Type := Session -> result A * Session.

Definition ret {A} (a : A) : M A := fun c => (Ok a, c).

Definition raise {A} (e : exn) : M A := fun c => (Raise e, c).

Definition bind {A B} (m : M A) (k : A -> M B) : M B :=
  fun c =>
    match m c with
    | (Ok a, c') => k a c'
    | (Raise e, c') => (Raise e, c')
    end.

Notation "x <- m ;; k" := (bind m (fun x => k))
  (at level 100, m at next level, right associativity).
Notation "m ;;; k" := (bind m (fun _ => k))
  (at level 100, right associativity).

(** [try: body except Exception as e: handler(e)]. *)
Definition try_except {A} (body : M A) (handler : exn -> M A) : M A :=
  fun c =>
    match body c with
    | (Ok a, c') => (Ok a, c')
    | (Raise e, c') => handler e c'
    end.

(** [sqlite3.connect(DATABASE_URL)]. *)
Definition sqlite3_connect (env : Env) : M unit :=
  match faults env Connect with
  | Some msg => raise (SqliteError msg)
  | None => ret tt
  end.

(** [cursor.execute] of a writing statement: it runs inside the transaction
    the [sqlite3] module opens before the first INSERT, so only [working]
    changes. *)
Definition execute_write (env : Env) (st : stage) (f : Store -> Store) : M unit :=
  match faults env st with
  | Some msg => raise (SqliteError msg)
  | None => fun c => (Ok tt, mk_Session (committed c) (f (working c)))
  end.

(** [cursor.execute] of a SELECT followed by [fetchall()]. *)
Definition execute_query {A} (env : Env) (q : Store -> A) : M A :=
  match faults env Select with
  | Some msg => raise (SqliteError msg)
  | None => fun c => (Ok (q (working c)), c)
  end.

(** [conn.commit()]. *)
Definition commit (env : Env) : M unit :=
  match faults env Commit with
  | Some msg => raise (SqliteError msg)
  | None => fun c => (Ok tt, mk_Session (working c) (working c))
  end.

(** A handler run against the database: a fresh connection on entry; on exit
    the connection is closed or dropped, and what it had not committed is
    rolled back. *)
Definition run {A} (m : M A) (db : Store) : result A * Store :=
  match m (mk_Session db db) with
  | (r, c) => (r, committed c)
  end.

(** ** [init_database] *)

(** [INSERT OR IGNORE INTO meters (id, description)]: a row whose id is taken
    is skipped; the other columns take their defaults. *)
Definition insert_or_ignore_meter (now : Z) (tbl : list Meter)
    (row : string * string) : list Meter :=
  if decide (row.1 ∈ m_id <$> tbl) then tbl
  else tbl ++ [mk_Meter row.1 (Some row.2) (sqlite_datetime now) (Some true)].

Definition sample_meters : list (string * string) :=
  [("meter_001", "Primary energy meter");
   ("meter_002", "Secondary meter A");
   ("meter_003", "Secondary meter B");
   ("meter_004", "Secondary meter C")].

(** The three CREATE TABLE IF NOT EXISTS leave existing tables alone. *)
Definition init_database (now : Z) (db : Store) : Store :=
  mk_Store (foldl (insert_or_ignore_meter now) (meters db) sample_meters)
           (meter_readings db) (readings_seq db) (meter_status db).

(** ** [receive_meter_data] *)

(** [repr(s)] of a Python string: in single quotes, or in double quotes
    when it holds a single quote and no double one; backslashes, the quote
    and the ASCII control characters escaped. The bytes of a character
    outside ASCII are passed through, as [repr] does for the printable
    ones. *)
Definition hex_digit (n : Z) : ascii :=
  if n <? 10 then digit_char n else ascii_of_nat (87 + Z.to_nat n).

Definition repr_char (q c : ascii) : string :=
  let n := Z.of_nat (nat_of_ascii c) in
  if Ascii.eqb c "092"%char then String "092"%char (String "092"%char "")
  else if Ascii.eqb c q then String "092"%char (String q "")
  else if n =? 10 then String "092"%char "n"%string
  else if n =? 13 then String "092"%char "r"%string
  else if n =? 9 then String "092"%char "t"%string
  else if (n <? 32) || (n =? 127)
       then String "092"%char (String "x" (String (hex_digit (n / 16))
                                        (String (hex_digit (n mod 16)) "")))
  else String c "".

Fixpoint repr_chars (q : ascii) (s : string) : string :=
  match s with
  | EmptyString => EmptyString
  | String c r => repr_char q c +:+ repr_chars q r
  end.

Fixpoint has_char (c : ascii) (s : string) : bool :=
  match s with
  | EmptyString => false
  | String c' r => Ascii.eqb c c' || has_char c r
  end.

Definition py_repr (s : string) : string :=
  let q : ascii := if has_char "'"%char s && negb (has_char "034"%char s) then "034"%char else "'"%char in
  String q (repr_chars q s) +:+ String q "".

(** [repr(timedelta(microseconds=us))]. *)
Definition timedelta_repr (us : Z) : string :=
  let days := us / 86400000000 in
  let rest := us mod 86400000000 in
  let secs := rest / 1000000 in
  let micro := rest mod 1000000 in
  let d := if days =? 0 then [] else ["days=" +:+ fmt_int days] in
  let sc := if secs =? 0 then [] else ["seconds=" +:+ fmt_int secs] in
  let m := if micro =? 0 then [] else ["microseconds=" +:+ fmt_int micro] in
  "datetime.timedelta(" +:+
  match (d ++ sc ++ m)%list with
  | [] => "0"
  | [a] => a
  | [a; b] => a +:+ ", " +:+ b
  | a :: b :: c :: _ => a +:+ ", " +:+ b +:+ ", " +:+ c
  end +:+ ")".

(** The message of the first field of [dt] that is out of range, in the order
    in which the [timezone] and [datetime] constructors check them. *)
Definition date_time_error (dt : datetime) : string :=
  if (year dt <? 1) || (9999 <? year dt)
  then "year " +:+ fmt_int (year dt) +:+ " is out of range"
  else if (month dt <? 1) || (12 <? month dt) then "month must be in 1..12"
  else if (day dt <? 1) || (Calendar.days_in_month (year dt) (month dt) <? day dt)
  then "day is out of range for month"
  else if (hour dt <? 0) || (23 <? hour dt) then "hour must be in 0..23"
  else if (minute dt <? 0) || (59 <? minute dt) then "minute must be in 0..59"
  else if (second dt <? 0) || (59 <? second dt) then "second must be in 0..59"
  else "microsecond must be in 0..999999".

Definition field_error (dt : datetime) : string :=
  match tzinfo dt with
  | Some off =>
      if (-86400000000 <? off) && (off <? 86400000000) then date_time_error dt
      else "offset must be a timedelta strictly between -timedelta(hours=24) and timedelta(hours=24), not "
           +:+ timedelta_repr off +:+ "."
  | None => date_time_error dt
  end.

(** [str(e)] of the [ValueError] that [fromisoformat] raises on [s]. *)
Definition isoformat_error (s : string) : string :=
  match parse_isoformat s with
  | None => "Invalid isoformat string: " +:+ py_repr s
  | Some dt => field_error dt
  end.

(** Line 121: the timestamp the reading is stored under. *)
Definition parse_timestamp (s : string) : result string :=
  match fromisoformat (replace_Z s) with
  | Some dt => Ok (strftime dt)
  | None => Raise (ValueError (isoformat_error (replace_Z s)))
  end.

(** The row the INSERT INTO meter_readings writes: the 31 parameters against
    the 31 columns, position by position; [id] is the key SQLite assigns. *)
Definition reading_row (id : Z) (data : MeterData) (dt : string) : MeterReading :=
  let v k := sqlite_real (dict_get (voltages data) k) in
  let i k := sqlite_real (dict_get (currents data) k) in
  let p k := sqlite_real (dict_get (power data) k) in
  let q k := sqlite_real (opt_dict_get (reactive_power data) k) in
  let s k := sqlite_real (opt_dict_get (apparent_power data) k) in
  let pf k := sqlite_real (dict_get (power_factors data) k) in
  mk_MeterReading id (meter_id data) (location data) dt
    (v "V_RN") (v "V_YN") (v "V_BN") (v "V_Avg") (v "V_RY") (v "V_YB") (v "V_BR")
    (i "I_R") (i "I_Y") (i "I_B") (i "I_N")
    (p "P_R") (p "P_Y") (p "P_B") (p "P_Total")
    (q "Q_R") (q "Q_Y") (q "Q_B") (q "Q_Total")
    (s "S_R") (s "S_Y") (s "S_B") (s "S_Total")
    (pf "PF_R") (pf "PF_Y") (pf "PF_B") (pf "PF_Avg")
    (sqlite_real (frequency data)).

Definition insert_reading (data : MeterData) (dt : string) (db : Store) : Store :=
  let id := readings_seq db + 1 in
  mk_Store (meters db) (meter_readings db ++ [reading_row id data dt]) id
           (meter_status db).

(** INSERT INTO meter_status ... ON CONFLICT(meter_id) DO UPDATE SET
    online = ?, last_update = ?: the row of that meter is updated in place,
    its [created_at] kept; without one, a row is added, [created_at] taking
    its default. *)
Fixpoint upsert_status (mid : string) (online : bool) (last_update : string)
    (created_at : option string) (tbl : list MeterStatus) : list MeterStatus :=
  match tbl with
  | [] => [mk_MeterStatus mid (Some online) (Some last_update) created_at]
  | r :: rest =>
      if String.eqb (s_meter_id r) mid
      then mk_MeterStatus (s_meter_id r) (Some online) (Some last_update)
             (s_created_at r) :: rest
      else r :: upsert_status mid online last_update created_at rest
  end.

Definition upsert_meter_status (env : Env) (mid : string) (utc_now : string)
    (db : Store) : Store :=
  mk_Store (meters db) (meter_readings db) (readings_seq db)
    (upsert_status mid true utc_now (sqlite_datetime (db_now env)) (meter_status db)).

Definition success_response : pyval :=
  PyDict [("status", PyStr "success"); ("message", PyStr "Data saved successfully")].

Definition error_response (e : exn) : pyval :=
  PyDict [("status", PyStr "error"); ("message", PyStr (str e))].

(** The body of the [try]. The diagnostic [print]s are left out, and
    [cursor.close()] and [conn.close()], which follow the commit, do not
    raise. *)
Definition receive_meter_data_try (env : Env) (data : MeterData) : M pyval :=
  sqlite3_connect env ;;;
  dt <- (match parse_timestamp (timestamp data) with
         | Ok dt => ret dt
         | Raise e => raise e
         end) ;;
  execute_write env InsertReading (insert_reading data dt) ;;;
  (let utc_now := strftime (utcnow env) in
   execute_write env UpsertStatus (upsert_meter_status env (meter_id data) utc_now)) ;;;
  commit env ;;;
  ret success_response.

Definition receive_meter_data (env : Env) (data : MeterData) (db : Store)
  : result pyval * Store :=
  run (try_except (receive_meter_data_try env data)
                  (fun e => ret (error_response e))) db.

(** ** [get_meters] *)

(** FROM meters m LEFT JOIN meter_status ms ON m.id = ms.meter_id: every meter
    with each of its status rows, or with none. *)
Definition left_join_status (db : Store) : list (Meter * option MeterStatus) :=
  meters db ≫=
    (fun m =>
       match filter (fun st => s_meter_id st = m_id m) (meter_status db) with
       | [] => [(m, None)]
       | sts => (fun st => (m, Some st)) <$> sts
       end).

Definition sql_bool (b : option bool) : sqlval :=
  match b with
  | Some true => SqlInt 1
  | Some false => SqlInt 0
  | None => SqlNull
  end.

Definition sql_text (s : option string) : sqlval :=
  match s with
  | Some t => SqlText t
  | None => SqlNull
  end.

Definition sql_real (v : option float) : sqlval :=
  match v with
  | Some f => SqlReal f
  | None => SqlNull
  end.

(** The Python value [sqlite3] hands back for a column value. *)
Definition to_py (v : sqlval) : pyval :=
  match v with
  | SqlNull => PyNone
  | SqlInt z => PyInt z
  | SqlReal f => PyFloat f
  | SqlText s => PyStr s
  end.

(** [row[i]]; every index used below is within the row. *)
Definition row_at (row : list sqlval) (i : nat) : pyval :=
  to_py (nth i row SqlNull).

(** SELECT m.id, ms.online, ms.last_update ... WHERE m.is_active = 1. *)
Definition select_meters (db : Store) : list (list sqlval) :=
  (fun j : Meter * option MeterStatus =>
     [SqlText (m_id j.1);
      match j.2 with Some st => sql_bool (s_online st) | None => SqlNull end;
      match j.2 with Some st => sql_text (s_last_update st) | None => SqlNull end])
  <$> filter (fun j : Meter * option MeterStatus => m_is_active j.1 = Some true)
             (left_join_status db).

Definition meter_entry (row : list sqlval) : pyval :=
  PyDict [("meter_id", row_at row 0);
          ("online", PyBool (match row_at row 1 with
                             | PyNone => false
                             | v => py_bool v
                             end));
          ("last_update", row_at row 2)].

Definition get_meters_try (env : Env) : M pyval :=
  sqlite3_connect env ;;;
  rows <- execute_query env select_meters ;;
  ret (PyDict [("meters", PyList (meter_entry <$> rows))]).

Definition get_meters (env : Env) (db : Store) : result pyval * Store :=
  run (try_except (get_meters_try env) (fun e => ret (error_response e))) db.

(** ** [get_meter_readings] *)

(** Text comparison of two timestamps, byte by byte, as SQLite compares two
    TEXT values. *)
Definition text_le (a b : string) : Prop := String.leb a b = true.

(** ORDER BY timestamp DESC: [newer_first r1 r2] lets [r1] come before [r2]. *)
Definition newer_first (r1 r2 : MeterReading) : Prop :=
  text_le (r_timestamp r2) (r_timestamp r1).

#[global] Instance text_le_dec a b : Decision (text_le a b).
Proof. unfold text_le. apply _. Defined.

#[global] Instance newer_first_dec r1 r2 : Decision (newer_first r1 r2).
Proof. unfold newer_first. apply _. Defined.

(** WHERE meter_id = ? AND timestamp >= datetime('now', ?): a NULL bound
    makes the comparison NULL, and no row passes. *)
Definition in_window (mid : string) (bound : option string) (r : MeterReading) : Prop :=
  r_meter_id r = mid /\
  match bound with
  | Some t => text_le t (r_timestamp r)
  | None => False
  end.

#[global] Instance in_window_dec mid bound r : Decision (in_window mid bound r).
Proof. unfold in_window. destruct bound; apply _. Defined.

(** The rows the SELECT yields, before projection: WHERE, ORDER BY, LIMIT. *)
Definition select_reading_rows (mid : string) (bound : option string)
    (db : Store) : list MeterReading :=
  take 100 (merge_sort newer_first (filter (in_window mid bound) (meter_readings db))).

(** The 29 selected columns. *)
Definition reading_columns (r : MeterReading) : list sqlval :=
  [SqlText (r_timestamp r);
   sql_real (voltage_r r); sql_real (voltage_y r); sql_real (voltage_b r);
   sql_real (voltage_avg r); sql_real (voltage_ry r); sql_real (voltage_yb r);
   sql_real (voltage_br r);
   sql_real (current_r r); sql_real (current_y r); sql_real (current_b r);
   sql_real (current_n r);
   sql_real (power_r r); sql_real (power_y r); sql_real (power_b r);
   sql_real (power_total r);
   sql_real (reactive_power_r r); sql_real (reactive_power_y r);
   sql_real (reactive_power_b r); sql_real (reactive_power_total r);
   sql_real (apparent_power_r r); sql_real (apparent_power_y r);
   sql_real (apparent_power_b r); sql_real (apparent_power_total r);
   sql_real (power_factor_r r); sql_real (power_factor_y r);
   sql_real (power_factor_b r); sql_real (power_factor_avg r);
   sql_real (r_frequency r)].

Definition select_readings (mid : string) (bound : option string) (db : Store)
  : list (list sqlval) :=
  reading_columns <$> select_reading_rows mid bound db.

Definition reading_entry (row : list sqlval) : pyval :=
  PyDict
    [("timestamp", row_at row 0);
     ("voltages", PyDict [("V_RN", row_at row 1); ("V_YN", row_at row 2);
                          ("V_BN", row_at row 3); ("V_Avg", row_at row 4);
                          ("V_RY", row_at row 5); ("V_YB", row_at row 6);
                          ("V_BR", row_at row 7)]);
     ("currents", PyDict [("I_R", row_at row 8); ("I_Y", row_at row 9);
                          ("I_B", row_at row 10); ("I_N", row_at row 11)]);
     ("power", PyDict [("P_R", row_at row 12); ("P_Y", row_at row 13);
                       ("P_B", row_at row 14); ("P_Total", row_at row 15)]);
     ("reactive_power", PyDict [("Q_R", row_at row 16); ("Q_Y", row_at row 17);
                                ("Q_B", row_at row 18); ("Q_Total", row_at row 19)]);
     ("apparent_power", PyDict [("S_R", row_at row 20); ("S_Y", row_at row 21);
                                ("S_B", row_at row 22); ("S_Total", row_at row 23)]);
     ("power_factors", PyDict [("PF_R", row_at row 24); ("PF_Y", row_at row 25);
                               ("PF_B", row_at row 26); ("PF_Avg", row_at row 27)]);
     ("frequency", row_at row 28)].

Definition get_meter_readings_try (env : Env) (mid : string) (hours : Z) : M pyval :=
  sqlite3_connect env ;;;
  rows <- execute_query env
            (select_readings mid (datetime_now_minus_hours (db_now env) hours)) ;;
  ret (PyDict [("meter_id", PyStr mid); ("readings", PyList (reading_entry <$> rows))]).

Definition get_meter_readings (env : Env) (mid : string) (hours : Z) (db : Store)
  : result pyval * Store :=
  run (try_except (get_meter_readings_try env mid hours)
                  (fun e => ret (error_response e))) db.

(** ** The system as a whole: requests against the store *)

Inductive request :=
| Startup (now : Z)
| PostMeterData (env : Env) (data : MeterData)
| GetMeters (env : Env)
| GetReadings (env : Env) (mid : string) (hours : Z).

Definition handle (db : Store) (rq : request) : Store :=
  match rq with
  | Startup now => init_database now db
  | PostMeterData env data => (receive_meter_data env data db).2
  | GetMeters env => (get_meters env db).2
  | GetReadings env mid hours => (get_meter_readings env mid hours db).2
  end.

(** The store after a sequence of requests. *)
Definition run_requests (db : Store) (rqs : list request) : Store :=
  foldl handle db rqs.

(** ** The mnemonic-key table *)

(** The six measurement groups of a payload, their names in the response, the
    keys each one is read under, and the column each key is stored in. *)
Inductive group :=
| Voltages | Currents | Power | ReactivePower | ApparentPower | PowerFactors.

#[global] Instance group_eq_dec : EqDecision group.
Proof. solve_decision. Defined.

Definition group_name (g : group) : string :=
  match g with
  | Voltages => "voltages"
  | Currents => "currents"
  | Power => "power"
  | ReactivePower => "reactive_power"
  | ApparentPower => "apparent_power"
  | PowerFactors => "power_factors"
  end.

Definition group_columns (g : group) : list (string * (MeterReading -> option float)) :=
  match g with
  | Voltages =>
      [("V_RN", voltage_r); ("V_YN", voltage_y); ("V_BN", voltage_b);
       ("V_Avg", voltage_avg); ("V_RY", voltage_ry); ("V_YB", voltage_yb);
       ("V_BR", voltage_br)]
  | Currents =>
      [("I_R", current_r); ("I_Y", current_y); ("I_B", current_b);
       ("I_N", current_n)]
  | Power =>
      [("P_R", power_r); ("P_Y", power_y); ("P_B", power_b);
       ("P_Total", power_total)]
  | ReactivePower =>
      [("Q_R", reactive_power_r); ("Q_Y", reactive_power_y);
       ("Q_B", reactive_power_b); ("Q_Total", reactive_power_total)]
  | ApparentPower =>
      [("S_R", apparent_power_r); ("S_Y", apparent_power_y);
       ("S_B", apparent_power_b); ("S_Total", apparent_power_total)]
  | PowerFactors =>
      [("PF_R", power_factor_r); ("PF_Y", power_factor_y);
       ("PF_B", power_factor_b); ("PF_Avg", power_factor_avg)]
  end.

Definition group_keys (g : group) : list string := fst <$> group_columns g.

(** The mapping a payload carries for a group, if it carries one. *)
Definition payload_group (data : MeterData) (g : group) : option pydict :=
  match g with
  | Voltages => Some (voltages data)
  | Currents => Some (currents data)
  | Power => Some (power data)
  | ReactivePower => reactive_power data
  | ApparentPower => apparent_power data
  | PowerFactors => Some (power_factors data)
  end.

(** The payload with the mapping of group [g] replaced by [m]. *)
Definition with_group (data : MeterData) (g : group) (m : option pydict) : MeterData :=
  let keep (old : pydict) := match m with Some d => d | None => old end in
  mk_MeterData (meter_id data) (timestamp data) (location data)
    (match g with Voltages => keep (voltages data) | _ => voltages data end)
    (match g with Currents => keep (currents data) | _ => currents data end)
    (match g with Power => keep (power data) | _ => power data end)
    (match g with PowerFactors => keep (power_factors data) | _ => power_factors data end)
    (frequency data)
    (match g with ReactivePower => m | _ => reactive_power data end)
    (match g with ApparentPower => m | _ => apparent_power data end).

(** The value the payload gives for key [k] of group [g]: [None] when the
    mapping or the key is missing, or the key is bound to [None]. *)
Definition payload_value (data : MeterData) (g : group) (k : string) : option float :=
  match payload_group data g with
  | Some m => dict_get m k
  | None => None
  end.

(** [entry[group][k]] in a reading of the response. *)
Definition entry_value (e : pyval) (g : group) (k : string) : option pyval :=
  match py_get (group_name g) e with
  | Some d => py_get k d
  | None => None
  end.

(** The first exception the [try] body of [receive_meter_data] meets, if
    any: the calls in program order. *)
Definition first_exception (env : Env) (data : MeterData) : option exn :=
  match faults env Connect with
  | Some msg => Some (SqliteError msg)
  | None =>
      match parse_timestamp (timestamp data) with
      | Raise e => Some e
      | Ok _ =>
          match faults env InsertReading with
          | Some msg => Some (SqliteError msg)
          | None =>
              match faults env UpsertStatus with
              | Some msg => Some (SqliteError msg)
              | None =>
                  match faults env Commit with
                  | Some msg => Some (SqliteError msg)
                  | None => None
                  end
              end
          end
      end
  end.

(** The primary key of [meter_status]: no two rows for one meter. *)
Definition status_keys_unique (db : Store) : Prop :=
  NoDup (s_meter_id <$> meter_status db).

(** The status rows of one meter. *)
Definition status_rows (mid : string) (db : Store) : list MeterStatus :=
  filter (fun st => s_meter_id st = mid) (meter_status db).

(** The entry built from one joined row. *)
Definition joined_entry (j : Meter * option MeterStatus) : pyval :=
  PyDict [("meter_id", PyStr (m_id j.1));
          ("online", PyBool match j.2 with
                            | Some st => bool_decide (s_online st = Some true)
                            | None => false
                            end);
          ("last_update", match j.2 with
                          | Some st => to_py (sql_text (s_last_update st))
                          | None => PyNone
                          end)].

(** ** Sample values *)

(** 2024-06-01 10:00:00 UTC, in seconds since the epoch. *)
Definition sample_now : Z := 1717236000.

Definition sample_env : Env :=
  mk_Env (mk_datetime 2024 6 1 10 0 0 0 None) sample_now no_faults.

(** The environment of a call whose status upsert fails. *)
Definition failing_upsert_env : Env :=
  mk_Env (mk_datetime 2024 6 1 10 0 0 0 None) sample_now
    (fun st => match st with UpsertStatus => Some "disk I/O error" | _ => None end).

Definition sample_payload : MeterData :=
  mk_MeterData "meter_001" "2024-01-01T12:00:00Z" "Main"
    {[ "V_RN" := Some 230.1%float ]} {[ "I_R" := Some 5.2%float ]}
    {[ "P_Total" := Some 1150%float ]} {[ "PF_Avg" := Some 0.95%float ]}
    (Some 50%float) None None.

(** The database after start-up. *)
Definition sample_store : Store := init_database sample_now empty_store.

(** A reading whose device clock is years ahead of the store's. *)
Definition future_payload : MeterData :=
  mk_MeterData "meter_001" "2030-01-01T00:00:00Z" "Main"
    {[ "V_RN" := Some 229.5%float ]} ∅ ∅ ∅ (Some 50%float) None None.

(** A meter that is in no table. *)
Definition unknown_meter : string := "meter_999".

(** The [readings] list of a readings response (empty for any other
    value). *)
Definition response_readings (r : result pyval) : list pyval :=
  match r with
  | Ok v => match py_get "readings" v with
            | Some (PyList l) => l
            | _ => []
            end
  | Raise _ => []
  end.

(** A reading newer than the one of [sample_payload]. *)
Definition newer_payload : MeterData :=
  mk_MeterData "meter_001" "2024-05-01T00:00:00Z" "Main"
    {[ "V_RN" := Some 231%float ]} ∅ ∅ ∅ (Some 50%float) None None.

(** The store after start-up and a hundred ingestions of [newer_payload]. *)
Definition crowded_store : Store :=
  run_requests sample_store (replicate 100 (PostMeterData sample_env newer_payload)).

(** A device that reports local time with its UTC offset. *)
Definition offset_payload : MeterData :=
  mk_MeterData "meter_001" "2024-01-01T12:00:00+05:30" "Main"
    {[ "V_RN" := Some 230.1%float ]} ∅ ∅ ∅ (Some 50%float) None None.

(** A device that reports milliseconds. *)
Definition millisecond_payload : MeterData :=
  mk_MeterData "meter_001" "2024-01-01T12:00:00.500Z" "Main"
    {[ "V_RN" := Some 230.1%float ]} ∅ ∅ ∅ (Some 50%float) None None.

(** The same reading with a device clock in the year 999. *)
Definition early_payload : MeterData :=
  mk_MeterData "meter_001" "0999-12-31T23:59:59Z" "Main"
    {[ "V_RN" := Some 229.5%float ]} ∅ ∅ ∅ (Some 50%float) None None.

(** The wall-clock fields of [dt] down to the second, with no offset: what
    ["%Y-%m-%d %H:%M:%S"] keeps of it. *)
Definition to_seconds_naive (dt : datetime) : datetime :=
  mk_datetime (year dt) (month dt) (day dt) (hour dt) (minute dt) (second dt) 0 None.

(** ** Invariants of the store *)

(** The primary key of [meters]. *)
Definition meter_ids_unique (db : Store) : Prop :=
  NoDup (m_id <$> meters db).

(** The keys AUTOINCREMENT has handed out: increasing down the table, none
    above the counter. *)
Definition reading_ids_increasing (db : Store) : Prop :=
  StronglySorted Z.lt (r_id <$> meter_readings db) /\
  Forall (fun r => r_id r <= readings_seq db) (meter_readings db).

(** A timestamp of the fixed-width shape ["YYYY-MM-DD HH:MM:SS"]. *)
Definition canonical_timestamp (ts : string) : Prop :=
  exists dt, check_fields dt = true /\ ts = iso_seconds dt.

Definition timestamps_canonical (db : Store) : Prop :=
  Forall (fun r => canonical_timestamp (r_timestamp r)) (meter_readings db).

(** The meters with a status row are the meters with a reading. *)
Definition status_matches_readings (db : Store) : Prop :=
  forall mid,
    mid ∈ s_meter_id <$> meter_status db <-> mid ∈ r_meter_id <$> meter_readings db.

(** The date and time of day of [dt] as one number, YYYYMMDDHHMMSS. *)
Definition civil_key (dt : datetime) : Z :=
  ((((year dt * 100 + month dt) * 100 + day dt) * 100 + hour dt) * 100
   + minute dt) * 100 + second dt.

(** The [meters] list of a listing response (empty for any other value). *)
Definition response_meters (r : result pyval) : list pyval :=
  match r with
  | Ok v => match py_get "meters" v with
            | Some (PyList l) => l
            | _ => []
            end
  | Raise _ => []
  end.

(** A store where [meter_002] has been switched off by hand. *)
Definition retired_store : Store :=
  mk_Store [mk_Meter "meter_001" (Some "Primary energy meter") None (Some true);
            mk_Meter "meter_002" (Some "Old meter") None (Some false)]
           [] 0 [].

(** The environment of a call that cannot open the database. *)
Definition failing_connect_env : Env :=
  mk_Env (mk_datetime 2024 6 1 10 0 0 0 None) sample_now
    (fun st => match st with Connect => Some "unable to open database file" | _ => None end).

(** A reading from a meter that was never registered. *)
Definition stray_payload : MeterData :=
  mk_MeterData "meter_777" "2024-06-01T09:00:00Z" "Annex"
    {[ "V_RN" := Some 228%float ]} ∅ ∅ ∅ None None None.

(** The date and time a stored timestamp text spells, as one number. *)
Definition timestamp_key (ts : string) : option Z :=
  option_map civil_key (fromisoformat ts).

(** The date and time of an entry of a readings response, as one number. *)
Definition entry_key (e : pyval) : option Z :=
  match py_get "timestamp" e with
  | Some (PyStr ts) => timestamp_key ts
  | _ => None
  end.

(** The timestamp of an ingestion, if it parses, has a year of four digits. *)
Definition four_digit_year (rq : request) : Prop :=
  match rq with
  | PostMeterData _ data =>
      forall dt, fromisoformat (replace_Z (timestamp data)) = Some dt -> 1000 <= year dt
  | _ => True
  end.

(** * Properties *)


(** ** The library models on known values *)

Example fromisoformat_trailing_Z :
  option_map strftime (fromisoformat (replace_Z "2024-01-01T12:00:00Z"))
  = Some "2024-01-01 12:00:00".
Proof. reflexivity. Qed.

Example fromisoformat_offset :
  fromisoformat "2024-01-01T12:00:00+05:30"
  = Some (mk_datetime 2024 1 1 12 0 0 0 (Some 19800000000)).
Proof. reflexivity. Qed.

Example fromisoformat_rejects_day_30_of_february : fromisoformat "2024-02-30" = None.
Proof. reflexivity. Qed.

Example fromisoformat_rejects_text : fromisoformat "yesterday" = None.
Proof. reflexivity. Qed.

(** Values CPython 3.11 itself gives: fractions of any length, the basic
    format, offsets without colon, week dates. *)
Example fromisoformat_formats :
  fromisoformat (replace_Z "2024-01-01T12:00:00.5Z")
  = Some (mk_datetime 2024 1 1 12 0 0 500000 (Some 0)) /\
  fromisoformat "20240101T120000+0530"
  = Some (mk_datetime 2024 1 1 12 0 0 0 (Some 19800000000)) /\
  fromisoformat "2024-01-01 12:30:45.123456789"
  = Some (mk_datetime 2024 1 1 12 30 45 123456 None) /\
  fromisoformat "2024-01-01T12:30:45,5-00:00:00.000001"
  = Some (mk_datetime 2024 1 1 12 30 45 500000 (Some 0)) /\
  fromisoformat "2024-W01-1" = Some (mk_datetime 2024 1 1 0 0 0 0 None) /\
  fromisoformat "2020-W53-1T12" = Some (mk_datetime 2020 12 28 12 0 0 0 None) /\
  fromisoformat "2024W011T1230" = Some (mk_datetime 2024 1 1 12 30 0 0 None) /\
  fromisoformat "2024-01-01T12:30x+05:30"
  = Some (mk_datetime 2024 1 1 12 30 0 0 (Some 19800000000)) /\
  fromisoformat "2024-01-01T" = None /\
  fromisoformat "2024-1-1" = None /\
  fromisoformat "2024-01-01T12:3045" = None /\
  fromisoformat "2024-W53-1" = None.
Proof. vm_compute. repeat split. Qed.

(** The messages of its [ValueError]s. *)
Example isoformat_error_messages :
  isoformat_error "yesterday" = "Invalid isoformat string: 'yesterday'" /\
  isoformat_error "2024-02-30" = "day is out of range for month" /\
  isoformat_error "2024-13-01" = "month must be in 1..12" /\
  isoformat_error "0000-01-01" = "year 0 is out of range" /\
  isoformat_error "2024-01-01T24:00:00" = "hour must be in 0..23" /\
  isoformat_error "2024-01-01T23:60:00" = "minute must be in 0..59" /\
  isoformat_error "2024-01-01T23:59:60" = "second must be in 0..59" /\
  isoformat_error "9999-W52-7" = "year 10000 is out of range" /\
  isoformat_error "0000-W01-1" = "month must be in 1..12" /\
  isoformat_error "2024-00-00T99:99:99+99:59"
  = "offset must be a timedelta strictly between -timedelta(hours=24) and timedelta(hours=24), not datetime.timedelta(days=4, seconds=14340)." /\
  isoformat_error "2024-01-01T12:00:00-24:00"
  = "offset must be a timedelta strictly between -timedelta(hours=24) and timedelta(hours=24), not datetime.timedelta(days=-1).".
Proof. vm_compute. repeat split. Qed.

(** [%Y] of the GNU C library. *)
Example strftime_years :
  strftime (mk_datetime 2024 1 1 12 0 0 0 None) = "2024-01-01 12:00:00" /\
  strftime (mk_datetime 999 12 31 23 59 59 0 (Some 0)) = "999-12-31 23:59:59" /\
  strftime (mk_datetime 1 12 31 23 59 59 0 None) = "1-12-31 23:59:59" /\
  fromisoformat "999-12-31 23:59:59" = None.
Proof. vm_compute. repeat split. Qed.

Example instant_of_offset_timestamp :
  option_map instant_us (fromisoformat "2024-01-01T12:00:00+05:30")
  = Some (Some 1704090600000000).
Proof. reflexivity. Qed.

Example civil_from_days_2024 : Calendar.civil_from_days 19723 = (2024, 1, 1).
Proof. reflexivity. Qed.

Example days_from_civil_2024 : Calendar.days_from_civil 2024 1 1 = 19723.
Proof. reflexivity. Qed.

(** Values SQLite itself gives for [datetime('2024-06-01 10:00:00', ...)]. *)
Example sqlite_datetime_values :
  datetime_now_minus_hours sample_now 24 = Some "2024-05-31 10:00:00" /\
  datetime_now_minus_hours sample_now 0 = Some "2024-06-01 10:00:00" /\
  datetime_now_minus_hours sample_now 17800000 = Some "-0007-10-20 18:00:00" /\
  datetime_now_minus_hours sample_now 59030000 = Some "-4710-04-22 02:00:00" /\
  datetime_now_minus_hours sample_now 100000000 = None /\
  datetime_now_minus_hours sample_now (-5) = None.
Proof. vm_compute. repeat split. Qed.

Example sqlite_real_values :
  sqlite_real (Some PrimFloat.nan) = None /\
  sqlite_real (Some (-0)%float) = Some 0%float /\
  sqlite_real (Some 230.1%float) = Some 230.1%float /\
  sqlite_real None = None.
Proof. repeat split. Qed.

(** ** The handlers, call by call *)

Lemma receive_meter_data_unfold env data db :
  receive_meter_data env data db =
    match first_exception env data with
    | Some e => (Ok (error_response e), db)
    | None =>
        match parse_timestamp (timestamp data) with
        | Ok dt =>
            (Ok success_response,
             upsert_meter_status env (meter_id data) (strftime (utcnow env))
               (insert_reading data dt db))
        | Raise e => (Ok (error_response e), db)
        end
    end.
Proof.
  unfold receive_meter_data, receive_meter_data_try, first_exception, run,
    try_except, bind, sqlite3_connect, execute_write, commit, ret, raise.
  destruct (faults env Connect); [reflexivity|].
  destruct (parse_timestamp (timestamp data)); [|reflexivity].
  destruct (faults env InsertReading); [reflexivity|].
  destruct (faults env UpsertStatus); [reflexivity|].
  destruct (faults env Commit); reflexivity.
Qed.

Lemma first_exception_no_faults env data :
  (forall st, faults env st = None) ->
  first_exception env data =
    match parse_timestamp (timestamp data) with
    | Ok _ => None
    | Raise e => Some e
    end.
Proof.
  intros H. unfold first_exception. rewrite !H.
  destruct (parse_timestamp (timestamp data)); reflexivity.
Qed.

Lemma get_meters_unfold env db :
  get_meters env db =
    match faults env Connect with
    | Some msg => (Ok (error_response (SqliteError msg)), db)
    | None =>
        match faults env Select with
        | Some msg => (Ok (error_response (SqliteError msg)), db)
        | None =>
            (Ok (PyDict [("meters", PyList (meter_entry <$> select_meters db))]), db)
        end
    end.
Proof.
  unfold get_meters, get_meters_try, run, try_except, bind, sqlite3_connect,
    execute_query, ret, raise.
  destruct (faults env Connect); [reflexivity|].
  destruct (faults env Select); reflexivity.
Qed.

Lemma get_meter_readings_unfold env mid hours db :
  get_meter_readings env mid hours db =
    match faults env Connect with
    | Some msg => (Ok (error_response (SqliteError msg)), db)
    | None =>
        match faults env Select with
        | Some msg => (Ok (error_response (SqliteError msg)), db)
        | None =>
            (Ok (PyDict
                   [("meter_id", PyStr mid);
                    ("readings",
                     PyList (reading_entry <$>
                               select_readings mid
                                  (datetime_now_minus_hours (db_now env) hours) db))]),
             db)
        end
    end.
Proof.
  unfold get_meter_readings, get_meter_readings_try, run, try_except, bind,
    sqlite3_connect, execute_query, ret, raise.
  destruct (faults env Connect); [reflexivity|].
  destruct (faults env Select); reflexivity.
Qed.

(** ** Exceptions and the response of the ingestion handler *)


Lemma parse_timestamp_raises s :
  fromisoformat (replace_Z s) = None ->
  exists msg, parse_timestamp s = Raise (ValueError msg).
Proof. intros H. unfold parse_timestamp. rewrite H. eauto. Qed.

Lemma parse_timestamp_ok s dt :
  fromisoformat (replace_Z s) = Some dt ->
  parse_timestamp s = Ok (strftime dt).
Proof. intros H. unfold parse_timestamp. now rewrite H. Qed.



(** While a call runs, its writes are pending: after the reading insert the
    connection sees the new row and the database file does not. *)
Lemma pending_until_commit env data dt db :
  faults env InsertReading = None ->
  execute_write env InsertReading (insert_reading data dt) (mk_Session db db)
  = (Ok tt, mk_Session db (insert_reading data dt db)).
Proof. intros H. unfold execute_write. now rewrite H. Qed.




(** ** Field extraction *)

Lemma opt_dict_get_Some m k : opt_dict_get (Some m) k = dict_get m k.
Proof.
  unfold opt_dict_get. destruct (decide (m = ∅)) as [->|]; [|reflexivity].
  unfold dict_get. now rewrite lookup_empty.
Qed.

Lemma dict_get_insert_ne (m : pydict) k k' v :
  k <> k' -> dict_get (<[k:=v]> m) k' = dict_get m k'.
Proof. intros H. unfold dict_get. now rewrite lookup_insert_ne. Qed.

Lemma dict_get_absent (m : pydict) k : m !! k = None -> dict_get m k = None.
Proof. intros H. unfold dict_get. now rewrite H. Qed.

Ltac split_columns H :=
  cbn in H;
  repeat (apply elem_of_cons in H as [H|H]; [injection H as -> ->|]);
  try (apply elem_of_nil in H; destruct H).

(** Every measurement column holds what the payload gives under its key. *)
Lemma reading_row_column id data dt g k col :
  (k, col) ∈ group_columns g ->
  col (reading_row id data dt) = sqlite_real (payload_value data g k).
Proof.
  intros H. unfold payload_value.
  destruct g; split_columns H; cbn; try reflexivity;
    match goal with |- context [opt_dict_get ?d _] => destruct d end;
    now rewrite ?opt_dict_get_Some.
Qed.

Lemma with_group_payload_group data g m :
  payload_group (with_group data g (Some m)) g = Some m.
Proof. destruct g; reflexivity. Qed.

Lemma opt_dict_get_match d k :
  opt_dict_get d k = match d with Some m => dict_get m k | None => None end.
Proof. destruct d; [apply opt_dict_get_Some | reflexivity]. Qed.

Lemma reading_row_ext id data data' dt :
  meter_id data = meter_id data' ->
  location data = location data' ->
  frequency data = frequency data' ->
  (forall g k, k ∈ group_keys g -> payload_value data g k = payload_value data' g k) ->
  reading_row id data dt = reading_row id data' dt.
Proof.
  intros Hm Hl Hf Hv.
  unfold reading_row. rewrite Hm, Hl, Hf, !opt_dict_get_match.
  pose proof (Hv Voltages) as HV. pose proof (Hv Currents) as HI.
  pose proof (Hv Power) as HP. pose proof (Hv ReactivePower) as HQ.
  pose proof (Hv ApparentPower) as HS. pose proof (Hv PowerFactors) as HF.
  unfold payload_value in *. cbn in HV, HI, HP, HQ, HS, HF.
  rewrite !HV, !HI, !HP, !HQ, !HS, !HF by set_solver.
  reflexivity.
Qed.


Lemma with_group_other data g g' m :
  g <> g' -> payload_group (with_group data g m) g' = payload_group data g'.
Proof. destruct g, g'; intros H; try congruence; reflexivity. Qed.

Lemma with_group_absent data g :
  g = ReactivePower \/ g = ApparentPower ->
  payload_group (with_group data g None) g = None.
Proof. intros [-> | ->]; reflexivity. Qed.

Lemma with_group_scalars data g m :
  meter_id (with_group data g m) = meter_id data /\
  timestamp (with_group data g m) = timestamp data /\
  location (with_group data g m) = location data /\
  frequency (with_group data g m) = frequency data.
Proof. repeat split. Qed.

(** Two payloads that agree on the scalar fields and on every known key are
    handled alike: same response, same store. *)
Lemma receive_meter_data_ext env data data' db :
  meter_id data = meter_id data' ->
  timestamp data = timestamp data' ->
  location data = location data' ->
  frequency data = frequency data' ->
  (forall g k, k ∈ group_keys g -> payload_value data g k = payload_value data' g k) ->
  receive_meter_data env data db = receive_meter_data env data' db.
Proof.
  intros Hm Ht Hl Hf Hv. rewrite !receive_meter_data_unfold.
  unfold first_exception, insert_reading. rewrite <- Ht, <- Hm.
  destruct (faults env Connect); [reflexivity|].
  destruct (parse_timestamp (timestamp data)) as [dt|e]; [|reflexivity].
  now rewrite (reading_row_ext _ data data' dt Hm Hl Hf Hv).
Qed.

(** C6: a key missing from a group mapping of the payload is stored as NULL,
    and so is every key of a [reactive_power] or [apparent_power] mapping
    that is missing altogether; neither is an error. A key outside the fixed
    set changes nothing, and a missing optional mapping is handled exactly as
    one whose four keys are bound to [None]. *)
Theorem absent_keys_stored_null (env : Env) (data : MeterData) (db : Store) :
  (forall g m k col id dt,
      (k, col) ∈ group_columns g ->
      payload_group data g = Some m -> m !! k = None ->
      col (reading_row id data dt) = None) /\
  (forall g k col id dt,
      (k, col) ∈ group_columns g ->
      payload_group data g = None ->
      col (reading_row id data dt) = None) /\
  (forall g m k v,
      payload_group data g = Some m -> k ∉ group_keys g ->
      receive_meter_data env (with_group data g (Some (<[k:=v]> m))) db
      = receive_meter_data env data db) /\
  (forall g m,
      g = ReactivePower \/ g = ApparentPower ->
      (forall k, k ∈ group_keys g -> dict_get m k = None) ->
      receive_meter_data env (with_group data g (Some m)) db
      = receive_meter_data env (with_group data g None) db) /\
  (forall g m, first_exception env (with_group data g m) = first_exception env data).
Proof.
  split; [|split; [|split; [|split]]].
  - intros g m k col id dt Hin Hg Hk.
    rewrite (reading_row_column _ _ _ g k col Hin). unfold payload_value.
    now rewrite Hg, (dict_get_absent _ _ Hk).
  - intros g k col id dt Hin Hg.
    rewrite (reading_row_column _ _ _ g k col Hin). unfold payload_value.
    now rewrite Hg.
  - intros g m k v Hg Hk.
    apply receive_meter_data_ext; try reflexivity.
    intros g' k' Hk'. unfold payload_value.
    destruct (decide (g = g')) as [<-|Hne].
    + rewrite with_group_payload_group, Hg.
      apply dict_get_insert_ne. intros ->. contradiction.
    + now rewrite with_group_other.
  - intros g m Hg Hnull.
    apply receive_meter_data_ext; try reflexivity.
    intros g' k' Hk'. unfold payload_value.
    destruct (decide (g = g')) as [<-|Hne].
    + rewrite with_group_payload_group, (with_group_absent _ _ Hg). now apply Hnull.
    + now rewrite !with_group_other.
  - intros g m. reflexivity.
Qed.

(** ** The status table under the upsert *)

Section upsert.
Variables (mid : string) (lu : string) (created : option string).

Let upsert := upsert_status mid true lu created.

Lemma upsert_status_keys tbl :
  s_meter_id <$> upsert tbl =
    if decide (mid ∈ s_meter_id <$> tbl) then s_meter_id <$> tbl
    else ((s_meter_id <$> tbl) ++ [mid])%list.
Proof.
  subst upsert. induction tbl as [|r rest IH]; cbn.
  - rewrite decide_False by apply not_elem_of_nil. reflexivity.
  - destruct (String.eqb_spec (s_meter_id r) mid) as [He|Hne]; cbn.
    + rewrite decide_True by (rewrite He; apply list_elem_of_here). reflexivity.
    + rewrite IH. destruct (decide (mid ∈ s_meter_id <$> rest)) as [Hin|Hnin].
      * rewrite decide_True by now apply list_elem_of_further. reflexivity.
      * rewrite decide_False; [reflexivity|].
        intros [?|?]%elem_of_cons; congruence.
Qed.

Lemma upsert_status_NoDup tbl :
  NoDup (s_meter_id <$> tbl) -> NoDup (s_meter_id <$> upsert tbl).
Proof.
  intros H. rewrite upsert_status_keys. case_decide; [assumption|].
  apply NoDup_app. split; [assumption|]. split.
  - intros x Hx [->|[]%elem_of_nil]%elem_of_cons. contradiction.
  - apply NoDup_singleton.
Qed.

Lemma upsert_status_elem tbl : mid ∈ s_meter_id <$> upsert tbl.
Proof.
  rewrite upsert_status_keys. case_decide; [assumption|].
  apply elem_of_app. right. apply list_elem_of_here.
Qed.

(** Rows keep their place: the upsert rewrites one row or appends one. *)
Lemma upsert_status_lookup tbl i st :
  tbl !! i = Some st ->
  exists st', upsert tbl !! i = Some st' /\
              s_meter_id st' = s_meter_id st /\
              (s_online st = Some true -> s_online st' = Some true) /\
              (s_meter_id st <> mid -> st' = st).
Proof.
  subst upsert. revert i. induction tbl as [|r rest IH]; intros i Hi; [discriminate|].
  cbn. destruct (String.eqb_spec (s_meter_id r) mid) as [He|Hne].
  - destruct i as [|i]; cbn in *.
    + injection Hi as <-. eexists. split; [reflexivity|]. cbn. tauto.
    + exists st. tauto.
  - destruct i as [|i]; cbn in *.
    + injection Hi as <-. exists r. tauto.
    + now apply IH.
Qed.

Lemma upsert_status_nil :
  upsert [] = [mk_MeterStatus mid (Some true) (Some lu) created].
Proof. reflexivity. Qed.

Lemma upsert_status_cons r rest :
  upsert (r :: rest) =
    if String.eqb (s_meter_id r) mid
    then mk_MeterStatus (s_meter_id r) (Some true) (Some lu) (s_created_at r) :: rest
    else r :: upsert rest.
Proof. reflexivity. Qed.

(** The rows of other meters are the same rows. *)
Lemma upsert_status_other tbl mid' :
  mid' <> mid ->
  filter (fun st => s_meter_id st = mid') (upsert tbl)
  = filter (fun st => s_meter_id st = mid') tbl.
Proof.
  intros Hne. induction tbl as [|r rest IH].
  - rewrite upsert_status_nil. rewrite filter_cons_False by (cbn; congruence).
    reflexivity.
  - rewrite upsert_status_cons.
    destruct (String.eqb_spec (s_meter_id r) mid) as [He|Hne'].
    + rewrite !filter_cons_False by (cbn; congruence). reflexivity.
    + rewrite !filter_cons, IH. reflexivity.
Qed.

Lemma no_row_of_fresh_key (tbl : list MeterStatus) :
  mid ∉ s_meter_id <$> tbl ->
  filter (fun st => s_meter_id st = mid) tbl = [].
Proof.
  intros Hnin.
  destruct (filter (fun st => s_meter_id st = mid) tbl) as [|x xs] eqn:Hf;
    [reflexivity|].
  exfalso. apply Hnin.
  assert (Hx : x ∈ filter (fun st => s_meter_id st = mid) tbl)
    by (rewrite Hf; apply list_elem_of_here).
  apply list_elem_of_filter in Hx as [Hx1 Hx2].
  rewrite <- Hx1. now apply list_elem_of_fmap_2.
Qed.

(** The row of [mid] after the upsert. *)
Lemma upsert_status_row tbl :
  NoDup (s_meter_id <$> tbl) ->
  match filter (fun st => s_meter_id st = mid) tbl with
  | [] =>
      upsert tbl = (tbl ++ [mk_MeterStatus mid (Some true) (Some lu) created])%list /\
      filter (fun st => s_meter_id st = mid) (upsert tbl)
      = [mk_MeterStatus mid (Some true) (Some lu) created]
  | old :: _ =>
      length (upsert tbl) = length tbl /\
      filter (fun st => s_meter_id st = mid) (upsert tbl)
      = [mk_MeterStatus mid (Some true) (Some lu) (s_created_at old)]
  end.
Proof.
  induction tbl as [|r rest IH]; intros Hnd.
  - rewrite filter_nil, upsert_status_nil.
    rewrite filter_cons_True by reflexivity. split; reflexivity.
  - rewrite fmap_cons in Hnd. apply NoDup_cons in Hnd as [Hr Hnd].
    specialize (IH Hnd). rewrite upsert_status_cons.
    destruct (String.eqb_spec (s_meter_id r) mid) as [He|Hne].
    + rewrite filter_cons_True by assumption.
      split; [reflexivity|]. rewrite filter_cons_True by assumption.
      rewrite He in Hr. rewrite (no_row_of_fresh_key _ Hr), He. reflexivity.
    + rewrite !filter_cons_False by assumption.
      destruct (filter (fun st => s_meter_id st = mid) rest) as [|x xs];
        destruct IH as [IH1 IH2].
      * rewrite IH1 at 1. split; [reflexivity|exact IH2].
      * cbn [length]. rewrite IH1. split; [reflexivity|exact IH2].
Qed.

End upsert.

Lemma one_row_per_key (tbl : list MeterStatus) mid :
  NoDup (s_meter_id <$> tbl) ->
  mid ∈ s_meter_id <$> tbl ->
  length (filter (fun st => s_meter_id st = mid) tbl) = 1%nat.
Proof.
  induction tbl as [|r rest IH]; intros Hnd Hin.
  - now apply elem_of_nil in Hin.
  - rewrite fmap_cons in Hnd, Hin. apply NoDup_cons in Hnd as [Hr Hnd].
    destruct (decide (s_meter_id r = mid)) as [He|Hne].
    + rewrite filter_cons_True by assumption.
      rewrite He in Hr. rewrite (no_row_of_fresh_key _ _ Hr). reflexivity.
    + rewrite filter_cons_False by assumption. apply IH; [assumption|].
      apply elem_of_cons in Hin as [?|?]; [congruence|assumption].
Qed.

(** What a request does to the status table: nothing, or one upsert. *)
Lemma handle_status db rq :
  meter_status (handle db rq) = meter_status db \/
  exists env data,
    rq = PostMeterData env data /\
    meter_status (handle db rq)
    = upsert_status (meter_id data) true (strftime (utcnow env))
        (sqlite_datetime (db_now env)) (meter_status db).
Proof.
  destruct rq as [now|env data|env|env mid hours]; cbn.
  - now left.
  - rewrite receive_meter_data_unfold.
    destruct (first_exception env data); [now left|].
    destruct (parse_timestamp (timestamp data)); [|now left].
    right. exists env, data. split; reflexivity.
  - rewrite get_meters_unfold.
    destruct (faults env Connect); [now left|]. destruct (faults env Select); now left.
  - rewrite get_meter_readings_unfold.
    destruct (faults env Connect); [now left|]. destruct (faults env Select); now left.
Qed.

Lemma run_requests_keys_unique db rqs :
  status_keys_unique db -> status_keys_unique (run_requests db rqs).
Proof.
  unfold run_requests, status_keys_unique. revert db.
  induction rqs as [|rq rqs IH]; intros db H; [exact H|].
  cbn. apply IH. destruct (handle_status db rq) as [->|(env & data & _ & ->)];
    [assumption | now apply upsert_status_NoDup].
Qed.

Lemma run_requests_keeps_key db rqs mid :
  mid ∈ s_meter_id <$> meter_status db ->
  mid ∈ s_meter_id <$> meter_status (run_requests db rqs).
Proof.
  unfold run_requests. revert db.
  induction rqs as [|rq rqs IH]; intros db H; [exact H|].
  cbn. apply IH. destruct (handle_status db rq) as [->|(env & data & _ & ->)];
    [assumption|].
  rewrite upsert_status_keys. case_decide; [assumption|].
  apply elem_of_app. now left.
Qed.

Lemma upsert_status_online mid lu created tbl :
  Forall (fun st => s_online st = Some true) tbl ->
  Forall (fun st => s_online st = Some true) (upsert_status mid true lu created tbl).
Proof.
  induction 1 as [|r rest Hr Hrest IH].
  - rewrite upsert_status_nil. now repeat constructor.
  - rewrite upsert_status_cons. destruct (String.eqb (s_meter_id r) mid).
    + constructor; [reflexivity|assumption].
    + constructor; assumption.
Qed.

Lemma upsert_status_writes mid lu created tbl :
  exists i st,
    upsert_status mid true lu created tbl !! i = Some st /\
    s_meter_id st = mid /\ s_online st = Some true /\ s_last_update st = Some lu.
Proof.
  induction tbl as [|r rest IH].
  - exists 0%nat. eexists. rewrite upsert_status_nil. split; [reflexivity|]. auto.
  - rewrite upsert_status_cons.
    destruct (String.eqb_spec (s_meter_id r) mid) as [He|Hne].
    + exists 0%nat. eexists. split; [reflexivity|]. auto.
    + destruct IH as (i & st & Hi & H). exists (S i), st. auto.
Qed.

Lemma run_requests_cons db rq rqs :
  run_requests db (rq :: rqs) = run_requests (handle db rq) rqs.
Proof. reflexivity. Qed.

(** A status row that is online stays where it is, and stays online. *)
Lemma run_requests_latch db rqs i st :
  meter_status db !! i = Some st ->
  s_online st = Some true ->
  exists st', meter_status (run_requests db rqs) !! i = Some st' /\
              s_meter_id st' = s_meter_id st /\
              s_online st' = Some true.
Proof.
  revert db st. induction rqs as [|rq rqs IH]; intros db st Hi Hon.
  - exists st. auto.
  - rewrite run_requests_cons.
    destruct (handle_status db rq) as [Heq|(env & data & _ & Heq)].
    + destruct (IH (handle db rq) st) as (st' & ? & ? & ?); [congruence|assumption|].
      exists st'. auto.
    + destruct (upsert_status_lookup (meter_id data) (strftime (utcnow env))
                  (sqlite_datetime (db_now env)) _ _ _ Hi) as (st1 & H1 & H2 & H3 & _).
      destruct (IH (handle db rq) st1) as (st' & ? & ? & ?);
        [congruence | auto |].
      exists st'. split; [assumption|]. split; [congruence|assumption].
Qed.

Lemma run_requests_all_online db rqs :
  Forall (fun st => s_online st = Some true) (meter_status db) ->
  Forall (fun st => s_online st = Some true) (meter_status (run_requests db rqs)).
Proof.
  revert db. induction rqs as [|rq rqs IH]; intros db H; [exact H|].
  rewrite run_requests_cons. apply IH.
  destruct (handle_status db rq) as [->|(env & data & _ & ->)];
    [assumption | now apply upsert_status_online].
Qed.

(** What a successful ingestion leaves in the store. *)
Lemma receive_meter_data_success env data db db' resp :
  receive_meter_data env data db = (Ok resp, db') ->
  py_get "status" resp = Some (PyStr "success") ->
  exists dt,
    fromisoformat (replace_Z (timestamp data)) = Some dt /\
    db' = upsert_meter_status env (meter_id data) (strftime (utcnow env))
            (insert_reading data (strftime dt) db).
Proof.
  rewrite receive_meter_data_unfold. unfold parse_timestamp.
  destruct (first_exception env data) as [e|].
  - intros [= <- <-] Hst. cbn in Hst. discriminate.
  - destruct (fromisoformat (replace_Z (timestamp data))) as [dt|].
    + intros [= <- <-] _. exists dt. split; reflexivity.
    + intros [= <- <-] Hst. cbn in Hst. discriminate.
Qed.

(** C3: a successful ingestion leaves exactly one status row for the
    payload's meter, with [online] true and [last_update] the wall clock of
    the call (not the timestamp of the payload): the row is added when the
    meter had none, and otherwise rewritten in place, keeping its
    [created_at]; the rows of other meters are untouched, and whatever
    requests follow, the meter still has exactly one row. *)
Theorem status_upsert_on_success (env : Env) (data : MeterData) (db db' : Store)
    (resp : pyval) :
  status_keys_unique db ->
  receive_meter_data env data db = (Ok resp, db') ->
  py_get "status" resp = Some (PyStr "success") ->
  status_keys_unique db' /\
  (exists row,
      status_rows (meter_id data) db' = [row] /\
      s_meter_id row = meter_id data /\
      s_online row = Some true /\
      s_last_update row = Some (strftime (utcnow env)) /\
      match status_rows (meter_id data) db with
      | [] =>
          meter_status db' = (meter_status db ++ [row])%list /\
          s_created_at row = sqlite_datetime (db_now env)
      | old :: _ =>
          length (meter_status db') = length (meter_status db) /\
          s_created_at row = s_created_at old
      end) /\
  (forall mid', mid' <> meter_id data -> status_rows mid' db' = status_rows mid' db) /\
  (forall rqs, length (status_rows (meter_id data) (run_requests db' rqs)) = 1%nat).
Proof.
  intros Huniq Hrun Hst.
  destruct (receive_meter_data_success _ _ _ _ _ Hrun Hst) as (dt & Hdt & ->).
  assert (Huniq' : status_keys_unique
            (upsert_meter_status env (meter_id data) (strftime (utcnow env))
               (insert_reading data (strftime dt) db)))
    by (apply upsert_status_NoDup; exact Huniq).
  split; [exact Huniq'|]. split; [|split].
  - pose proof (upsert_status_row (meter_id data) (strftime (utcnow env))
                  (sqlite_datetime (db_now env)) (meter_status db) Huniq) as Hrow.
    unfold status_rows. cbn [meter_status upsert_meter_status insert_reading].
    destruct (filter (fun st => s_meter_id st = meter_id data) (meter_status db))
      as [|old olds]; destruct Hrow as [H1 H2]; eexists; (split; [exact H2|]);
      cbn; auto.
  - intros mid' Hne. unfold status_rows.
    cbn [meter_status upsert_meter_status insert_reading].
    now apply upsert_status_other.
  - intros rqs. apply one_row_per_key.
    + now apply run_requests_keys_unique.
    + apply run_requests_keeps_key.
      cbn [meter_status upsert_meter_status insert_reading].
      apply upsert_status_elem.
Qed.

(** C9: no request turns [online] off. A status row that is online keeps its
    place, its meter and [online = true] through every sequence of requests;
    after a successful ingestion the meter has an online row whatever
    follows; and starting from the empty database every status row there
    ever is has [online = true], however old its [last_update]. *)
Theorem online_is_latched (db : Store) (rqs : list request) :
  (forall i st,
      meter_status db !! i = Some st -> s_online st = Some true ->
      exists st', meter_status (run_requests db rqs) !! i = Some st' /\
                  s_meter_id st' = s_meter_id st /\
                  s_online st' = Some true) /\
  (forall env data resp db',
      receive_meter_data env data db = (Ok resp, db') ->
      py_get "status" resp = Some (PyStr "success") ->
      exists st, st ∈ meter_status (run_requests db' rqs) /\
                 s_meter_id st = meter_id data /\
                 s_online st = Some true) /\
  Forall (fun st => s_online st = Some true)
         (meter_status (run_requests empty_store rqs)).
Proof.
  split; [|split].
  - intros i st. apply run_requests_latch.
  - intros env data resp db' Hrun Hst.
    destruct (receive_meter_data_success _ _ _ _ _ Hrun Hst) as (dt & Hdt & ->).
    destruct (upsert_status_writes (meter_id data) (strftime (utcnow env))
                (sqlite_datetime (db_now env)) (meter_status db))
      as (i & st & Hi & Hk & Hon & _).
    destruct (run_requests_latch
                (upsert_meter_status env (meter_id data) (strftime (utcnow env))
                   (insert_reading data (strftime dt) db)) rqs i st Hi Hon)
      as (st' & Hi' & Hk' & Hon').
    exists st'. split; [now apply list_elem_of_lookup_2 in Hi'|].
    split; [congruence|assumption].
  - apply run_requests_all_online. constructor.
Qed.

(** ** The meter listing *)

Lemma elem_of_left_join db m ost :
  (m, ost) ∈ left_join_status db <->
  m ∈ meters db /\
  match ost with
  | Some st => st ∈ meter_status db /\ s_meter_id st = m_id m
  | None => status_rows (m_id m) db = []
  end.
Proof.
  unfold left_join_status, status_rows. rewrite list_elem_of_bind. split.
  - intros (m' & Hin & Hm').
    destruct (filter (fun st => s_meter_id st = m_id m') (meter_status db))
      as [|x xs] eqn:Hf.
    + apply list_elem_of_singleton in Hin. injection Hin as -> ->.
      split; [assumption|exact Hf].
    + apply list_elem_of_fmap in Hin as (st & Heq & Hst). injection Heq as -> ->.
      split; [assumption|]. rewrite <- Hf in Hst.
      apply list_elem_of_filter in Hst as [? ?]. split; assumption.
  - intros [Hm Hst]. exists m. split; [|assumption].
    destruct ost as [st|].
    + destruct Hst as [Hin Hk].
      assert (Hf : st ∈ filter (fun st => s_meter_id st = m_id m) (meter_status db))
        by (apply list_elem_of_filter; split; assumption).
      destruct (filter (fun st => s_meter_id st = m_id m) (meter_status db))
        as [|x xs]; [now apply elem_of_nil in Hf|].
      now apply list_elem_of_fmap_2 with (f := fun st => (m, Some st)).
    + rewrite Hst. apply list_elem_of_here.
Qed.

Lemma meter_entries_joined db :
  meter_entry <$> select_meters db
  = joined_entry <$> filter (fun j : Meter * option MeterStatus =>
                               m_is_active j.1 = Some true) (left_join_status db).
Proof.
  unfold select_meters. rewrite <- list_fmap_compose. apply list_fmap_ext.
  intros _ [m [st|]] _; [|reflexivity].
  unfold joined_entry, meter_entry, row_at. cbn.
  destruct (s_online st) as [[|]|]; reflexivity.
Qed.

Lemma left_join_unique_status db :
  status_keys_unique db ->
  left_join_status db
  = (fun m => (m, head (status_rows (m_id m) db))) <$> meters db.
Proof.
  intros Hu. unfold left_join_status, status_rows.
  induction (meters db) as [|m ms IH]; [reflexivity|].
  rewrite bind_cons, fmap_cons, IH. f_equal.
  destruct (filter (fun st => s_meter_id st = m_id m) (meter_status db))
    as [|x xs] eqn:Hf; [reflexivity|].
  assert (Hlen : length (x :: xs) = 1%nat).
  { rewrite <- Hf. apply one_row_per_key; [exact Hu|].
    assert (Hx : x ∈ filter (fun st => s_meter_id st = m_id m) (meter_status db))
      by (rewrite Hf; apply list_elem_of_here).
    apply list_elem_of_filter in Hx as [Hx1 Hx2].
    rewrite <- Hx1. now apply list_elem_of_fmap_2. }
  destruct xs; [reflexivity|discriminate].
Qed.

Lemma filter_active_joined (f : Meter -> option MeterStatus) (l : list Meter) :
  filter (fun j : Meter * option MeterStatus => m_is_active j.1 = Some true)
         ((fun m => (m, f m)) <$> l)
  = (fun m => (m, f m)) <$> filter (fun m => m_is_active m = Some true) l.
Proof.
  induction l as [|a l IH]; [reflexivity|].
  rewrite fmap_cons, !filter_cons, IH. cbn [fst].
  repeat destruct (decide _); try contradiction; reflexivity.
Qed.

(** C4: [get_meters] lists the meters whose [is_active] is true and no
    others, each with the [online] and [last_update] of its status row; a
    meter without a status row is listed with [online] false and
    [last_update] None. With the primary key of [meter_status] in force there
    is one entry per active meter. *)
Theorem get_meters_lists_active_meters (env : Env) (db : Store) :
  faults env Connect = None ->
  faults env Select = None ->
  exists entries,
    get_meters env db = (Ok (PyDict [("meters", PyList entries)]), db) /\
    (forall e, e ∈ entries ->
       exists m, m ∈ meters db /\ m_is_active m = Some true /\
         py_get "meter_id" e = Some (PyStr (m_id m)) /\
         match status_rows (m_id m) db with
         | [] => py_get "online" e = Some (PyBool false) /\
                 py_get "last_update" e = Some PyNone
         | _ => exists st, st ∈ status_rows (m_id m) db /\
                  py_get "online" e
                  = Some (PyBool (bool_decide (s_online st = Some true))) /\
                  py_get "last_update" e = Some (to_py (sql_text (s_last_update st)))
         end) /\
    (forall m, m ∈ meters db -> m_is_active m = Some true ->
       exists e, e ∈ entries /\ py_get "meter_id" e = Some (PyStr (m_id m))) /\
    (NoDup (m_id <$> meters db) ->
     forall m e, m ∈ meters db -> m_is_active m <> Some true -> e ∈ entries ->
       py_get "meter_id" e <> Some (PyStr (m_id m))) /\
    (status_keys_unique db ->
     entries = (fun m => joined_entry (m, head (status_rows (m_id m) db)))
               <$> filter (fun m => m_is_active m = Some true) (meters db)).
Proof.
  intros Hc Hs. exists (meter_entry <$> select_meters db).
  rewrite get_meters_unfold, Hc, Hs. split; [reflexivity|].
  rewrite meter_entries_joined.
  assert (Hentry : forall e,
    e ∈ joined_entry <$> filter (fun j : Meter * option MeterStatus =>
                                   m_is_active j.1 = Some true) (left_join_status db) ->
    exists m ost, e = joined_entry (m, ost) /\ m_is_active m = Some true /\
                  (m, ost) ∈ left_join_status db).
  { intros e (j & -> & Hj)%list_elem_of_fmap.
    apply list_elem_of_filter in Hj as [Hact Hj]. destruct j as [m ost].
    exists m, ost. auto. }
  split; [|split; [|split]].
  - intros e He. destruct (Hentry e He) as (m & ost & -> & Hact & Hj).
    apply elem_of_left_join in Hj as [Hm Hst].
    exists m. split; [assumption|]. split; [assumption|]. split; [reflexivity|].
    destruct ost as [st|].
    + destruct Hst as [Hin Hk].
      assert (Hf : st ∈ status_rows (m_id m) db)
        by (apply list_elem_of_filter; split; assumption).
      destruct (status_rows (m_id m) db) as [|x xs] eqn:Hrows;
        [now apply elem_of_nil in Hf|].
      exists st. split; [assumption|]. split; reflexivity.
    + rewrite Hst. split; reflexivity.
  - intros m Hm Hact.
    destruct (status_rows (m_id m) db) as [|st sts] eqn:Hrows.
    + exists (joined_entry (m, None)). split; [|reflexivity].
      apply list_elem_of_fmap_2, list_elem_of_filter. split; [exact Hact|].
      apply elem_of_left_join. split; assumption.
    + exists (joined_entry (m, Some st)). split; [|reflexivity].
      apply list_elem_of_fmap_2, list_elem_of_filter. split; [exact Hact|].
      apply elem_of_left_join. split; [assumption|].
      assert (Hf : st ∈ status_rows (m_id m) db)
        by (rewrite Hrows; apply list_elem_of_here).
      apply list_elem_of_filter in Hf as [? ?]. split; assumption.
  - intros Hnd m e Hm Hinactive He Hid.
    destruct (Hentry e He) as (m' & ost & -> & Hact & Hj).
    apply elem_of_left_join in Hj as [Hm' _].
    cbn in Hid. injection Hid as Hid.
    assert (m' = m); [|congruence].
    apply list_elem_of_lookup_1 in Hm as [i Hi].
    apply list_elem_of_lookup_1 in Hm' as [i' Hi'].
    assert (i' = i); [|congruence].
    apply (NoDup_lookup _ i' i (m_id m) Hnd);
      rewrite list_lookup_fmap; [rewrite Hi'; cbn; now rewrite Hid | now rewrite Hi].
  - intros Hu. rewrite (left_join_unique_status db Hu).
    rewrite (filter_active_joined (fun m => head (status_rows (m_id m) db))).
    rewrite <- list_fmap_compose. reflexivity.
Qed.

(** ** The order on timestamps *)

Lemma ascii_compare_refl a : (a ?= a)%char = Eq.
Proof. unfold Ascii.compare. apply N.compare_refl. Qed.

Lemma ascii_compare_lt_trans a b c :
  (a ?= b)%char = Lt -> (b ?= c)%char = Lt -> (a ?= c)%char = Lt.
Proof. unfold Ascii.compare. rewrite !N.compare_lt_iff. apply N.lt_trans. Qed.

Lemma string_compare_refl s : (s ?= s)%string = Eq.
Proof. induction s as [|c s IH]; cbn; [reflexivity|]. now rewrite ascii_compare_refl. Qed.

Lemma string_compare_lt_trans a b c :
  (a ?= b)%string = Lt -> (b ?= c)%string = Lt -> (a ?= c)%string = Lt.
Proof.
  revert b c. induction a as [|x a IH]; intros [|y b] [|z c]; cbn; try easy.
  destruct (x ?= y)%char eqn:Exy; try easy.
  - apply Ascii.compare_eq_iff in Exy as ->.
    destruct (y ?= z)%char; try easy. apply IH.
  - destruct (y ?= z)%char eqn:Eyz; try easy.
    + apply Ascii.compare_eq_iff in Eyz as <-. now rewrite Exy.
    + now rewrite (ascii_compare_lt_trans _ _ _ Exy Eyz).
Qed.

Lemma text_le_refl a : text_le a a.
Proof. unfold text_le, String.leb. now rewrite string_compare_refl. Qed.

Lemma text_le_trans a b c : text_le a b -> text_le b c -> text_le a c.
Proof.
  unfold text_le, String.leb.
  destruct (a ?= b)%string eqn:Eab; try easy;
    destruct (b ?= c)%string eqn:Ebc; try easy; intros _ _.
  - apply String.compare_eq_iff in Eab as ->. now rewrite Ebc.
  - apply String.compare_eq_iff in Eab as ->. now rewrite Ebc.
  - apply String.compare_eq_iff in Ebc as <-. now rewrite Eab.
  - now rewrite (string_compare_lt_trans _ _ _ Eab Ebc).
Qed.

Lemma text_le_total a b : text_le a b \/ text_le b a.
Proof. apply String.leb_total. Qed.

#[global] Instance newer_first_total : Total newer_first.
Proof. intros r1 r2. unfold newer_first. apply text_le_total. Qed.

#[global] Instance newer_first_trans : Transitive newer_first.
Proof. intros r1 r2 r3 H12 H23. unfold newer_first in *. eapply text_le_trans; eassumption. Qed.

(** ** Sorting, then keeping the first rows *)

Section first_rows.
Context {A : Type} (R : relation A) `{!forall x y, Decision (R x y)}
        `{!Total R} `{!Transitive R}.

Lemma length_filter_Forall (P : A -> Prop) `{!forall x, Decision (P x)} (l : list A) :
  Forall P l -> length (filter P l) = length l.
Proof.
  induction 1 as [|x l Hx Hl IH]; [reflexivity|].
  rewrite filter_cons_True by assumption. cbn. now rewrite IH.
Qed.

(** In a sorted list, [x] is among the first [n] elements when at most [n]
    elements may stand before or at its place. *)
Lemma elem_of_take_sorted (l : list A) (x : A) (n : nat) :
  StronglySorted R l ->
  x ∈ l ->
  (length (filter (fun y => R y x) l) <= n)%nat ->
  x ∈ take n l.
Proof.
  intros Hs Hx Hn.
  apply list_elem_of_split in Hx as (l1 & l2 & ->).
  apply StronglySorted_app in Hs as (H12 & _ & _).
  assert (Hl1 : Forall (fun y => R y x) l1).
  { apply Forall_forall. intros y Hy. apply H12; [assumption|apply list_elem_of_here]. }
  rewrite filter_app, length_app, (length_filter_Forall _ _ Hl1) in Hn.
  rewrite filter_cons_True in Hn by (destruct (total R x x); assumption).
  cbn in Hn. apply elem_of_take. exists (length l1). split; [|lia].
  rewrite lookup_app_r by lia. now rewrite Nat.sub_diag.
Qed.

(** Conversely, [n] elements that must stand before [x] keep it out. *)
Lemma not_elem_of_take_sorted (l : list A) (x : A) (n : nat) :
  StronglySorted R l ->
  (n <= length (filter (fun y => ~ R x y) l))%nat ->
  x ∉ take n l.
Proof.
  intros Hs Hn Hx.
  apply elem_of_take in Hx as (i & Hi & Hlt).
  apply list_elem_of_split_length in Hi as (l1 & l2 & -> & ->).
  apply StronglySorted_app in Hs as (_ & _ & Hs2).
  apply StronglySorted_cons in Hs2 as [Hx2 _].
  rewrite filter_app, length_app in Hn.
  rewrite filter_cons_False in Hn
    by (intros Hxx; apply Hxx; destruct (total R x x); assumption).
  assert (Hl2 : filter (fun y => ~ R x y) l2 = []).
  { clear -Hx2. induction Hx2 as [|y l2 Hy Hl2 IH]; [reflexivity|].
    rewrite filter_cons_False by tauto. exact IH. }
  rewrite Hl2 in Hn. cbn in Hn.
  pose proof (length_filter (fun y => ~ R x y) l1). lia.
Qed.

(** The rows dropped by the limit are no better placed than those kept. *)
Lemma take_sorted_best (l : list A) (n : nat) (x y : A) :
  StronglySorted R l ->
  x ∈ take n l -> y ∈ l -> y ∉ take n l -> R x y.
Proof.
  intros Hs Hx Hy Hny.
  rewrite <- (take_drop n l) in Hs, Hy.
  apply StronglySorted_app in Hs as (H12 & _ & _).
  apply elem_of_app in Hy as [Hy|Hy]; [contradiction|]. now apply H12.
Qed.

End first_rows.

(** ** The readings query *)

Lemma select_reading_rows_sorted mid bound db :
  StronglySorted newer_first (select_reading_rows mid bound db).
Proof.
  unfold select_reading_rows.
  pose proof (StronglySorted_merge_sort newer_first
                (filter (in_window mid bound) (meter_readings db))) as Hs.
  rewrite <- (take_drop 100) in Hs.
  now apply StronglySorted_app in Hs as (_ & Hs & _).
Qed.

Lemma elem_of_sorted_window mid bound db r :
  r ∈ merge_sort newer_first (filter (in_window mid bound) (meter_readings db)) <->
  in_window mid bound r /\ r ∈ meter_readings db.
Proof. rewrite merge_sort_Permutation. apply list_elem_of_filter. Qed.

Lemma elem_of_select_reading_rows mid bound db r :
  r ∈ select_reading_rows mid bound db ->
  in_window mid bound r /\ r ∈ meter_readings db.
Proof.
  unfold select_reading_rows. intros Hr.
  apply elem_of_sorted_window.
  apply elem_of_take in Hr as (i & Hi & _). now apply list_elem_of_lookup_2 in Hi.
Qed.

Lemma select_reading_rows_length mid bound db :
  (length (select_reading_rows mid bound db) <= 100)%nat.
Proof. unfold select_reading_rows. rewrite length_take. lia. Qed.

Lemma reading_entry_timestamp r :
  py_get "timestamp" (reading_entry (reading_columns r)) = Some (PyStr (r_timestamp r)).
Proof. reflexivity. Qed.

(** The bound of the window, for a lookback that is not negative. *)
Lemma datetime_now_minus_hours_nonneg now hours :
  0 <= hours ->
  datetime_now_minus_hours now hours = sqlite_datetime (now - hours * 3600).
Proof.
  intros H. unfold datetime_now_minus_hours.
  destruct (Z.ltb_spec hours 0); [lia|reflexivity].
Qed.

(** C5, as the code has it: [get_meter_readings] returns at most 100
    readings, every one a stored reading of that meter whose timestamp is not
    before (as text) the store's time less [hours] hours; they come newest
    first, and a reading of the window that the limit left out is not newer
    than any that was returned. The window has no upper end: when it holds
    at most 100 readings all of them are returned, however late their
    timestamp. A negative [hours] gives no reading. *)
Theorem readings_query_window (env : Env) (mid : string) (hours : Z) (db : Store) :
  faults env Connect = None ->
  faults env Select = None ->
  exists rows,
    get_meter_readings env mid hours db
    = (Ok (PyDict [("meter_id", PyStr mid);
                   ("readings", PyList (reading_entry <$> (reading_columns <$> rows)))]),
       db) /\
    (length rows <= 100)%nat /\
    (forall r, r ∈ rows ->
       r ∈ meter_readings db /\ r_meter_id r = mid /\
       exists bound,
         datetime_now_minus_hours (db_now env) hours = Some bound /\
         text_le bound (r_timestamp r)) /\
    StronglySorted newer_first rows /\
    (forall r r', r ∈ rows -> r' ∈ meter_readings db ->
       in_window mid (datetime_now_minus_hours (db_now env) hours) r' ->
       r' ∉ rows -> text_le (r_timestamp r') (r_timestamp r)) /\
    (forall r',
       (length (filter (in_window mid (datetime_now_minus_hours (db_now env) hours))
                       (meter_readings db)) <= 100)%nat ->
       r' ∈ meter_readings db ->
       in_window mid (datetime_now_minus_hours (db_now env) hours) r' ->
       r' ∈ rows) /\
    (0 <= hours ->
     datetime_now_minus_hours (db_now env) hours
     = sqlite_datetime (db_now env - hours * 3600)) /\
    (hours < 0 -> rows = []).
Proof.
  intros Hc Hs.
  exists (select_reading_rows mid (datetime_now_minus_hours (db_now env) hours) db).
  rewrite get_meter_readings_unfold, Hc, Hs.
  split; [reflexivity|]. split; [apply select_reading_rows_length|].
  split; [|split; [|split; [|split; [|split]]]].
  - intros r Hr. apply elem_of_select_reading_rows in Hr as [[Hm Hb] Hin].
    split; [assumption|]. split; [assumption|].
    destruct (datetime_now_minus_hours (db_now env) hours) as [bound|]; [|contradiction].
    exists bound. split; [reflexivity|assumption].
  - apply select_reading_rows_sorted.
  - intros r r' Hr Hin Hw Hout. unfold select_reading_rows in Hr, Hout.
    change (newer_first r r').
    eapply (take_sorted_best newer_first);
      [apply StronglySorted_merge_sort; apply _ | exact Hr | | exact Hout].
    apply elem_of_sorted_window. split; assumption.
  - intros r' Hlen Hin Hw. unfold select_reading_rows.
    rewrite take_ge
      by (erewrite Permutation_length by apply merge_sort_Permutation; exact Hlen).
    apply elem_of_sorted_window. split; assumption.
  - apply datetime_now_minus_hours_nonneg.
  - intros Hneg.
    destruct (select_reading_rows mid (datetime_now_minus_hours (db_now env) hours) db)
      as [|r rows] eqn:Hrows; [reflexivity|]. exfalso.
    assert (Hr : r ∈ select_reading_rows mid
                       (datetime_now_minus_hours (db_now env) hours) db)
      by (rewrite Hrows; apply list_elem_of_here).
    apply elem_of_select_reading_rows in Hr as [[_ Hb] _].
    unfold datetime_now_minus_hours in Hb.
    destruct (Z.ltb_spec hours 0); [exact Hb|lia].
Qed.

(** A query for the last 24 hours on a store holding one reading. *)
Lemma readings_query_window_witness :
  exists rows,
    get_meter_readings sample_env "meter_001" 24
      (receive_meter_data sample_env future_payload sample_store).2
    = (Ok (PyDict [("meter_id", PyStr "meter_001");
                   ("readings", PyList (reading_entry <$> (reading_columns <$> rows)))]),
       (receive_meter_data sample_env future_payload sample_store).2) /\
    (length rows <= 100)%nat.
Proof.
  destruct (readings_query_window sample_env "meter_001" 24
              (receive_meter_data sample_env future_payload sample_store).2
              eq_refl eq_refl) as (rows & H1 & H2 & _).
  exists rows. split; assumption.
Defined.

(** C5 as stated fails: a reading stamped years after the store's current
    time is returned by a query for the last hour. *)
Lemma future_reading_in_last_hour :
  let db := (receive_meter_data sample_env future_payload sample_store).2 in
  exists e t,
    (get_meter_readings sample_env "meter_001" 1 db).1
    = Ok (PyDict [("meter_id", PyStr "meter_001"); ("readings", PyList [e])]) /\
    py_get "timestamp" e = Some (PyStr "2030-01-01 00:00:00") /\
    sqlite_datetime (db_now sample_env) = Some "2024-06-01 10:00:00" /\
    stored_instant_us "2030-01-01 00:00:00" = Some t /\
    db_now sample_env * 1000000 < t.
Proof.
  eexists _, _. split; [vm_compute; reflexivity|].
  split; [reflexivity|]. split; [reflexivity|]. split; [vm_compute; reflexivity|].
  vm_compute. reflexivity.
Qed.

(** C8: a query for a meter without matching readings answers with an empty
    [readings] list, whether the meter is in [meters] or not: the query reads
    [meter_readings] only. *)
Theorem unknown_meter_gives_empty_readings (env : Env) (mid : string) (hours : Z)
    (db : Store) :
  faults env Connect = None ->
  faults env Select = None ->
  ((forall r, r ∈ meter_readings db ->
      ~ in_window mid (datetime_now_minus_hours (db_now env) hours) r) ->
   (get_meter_readings env mid hours db).1
   = Ok (PyDict [("meter_id", PyStr mid); ("readings", PyList [])])) /\
  ((forall r, r ∈ meter_readings db -> r_meter_id r <> mid) ->
   mid ∉ m_id <$> meters db ->
   (get_meter_readings env mid hours db).1
   = Ok (PyDict [("meter_id", PyStr mid); ("readings", PyList [])])) /\
  (forall db2, meter_readings db2 = meter_readings db ->
   (get_meter_readings env mid hours db2).1 = (get_meter_readings env mid hours db).1).
Proof.
  intros Hc Hs.
  assert (Hempty : (forall r, r ∈ meter_readings db ->
             ~ in_window mid (datetime_now_minus_hours (db_now env) hours) r) ->
           (get_meter_readings env mid hours db).1
           = Ok (PyDict [("meter_id", PyStr mid); ("readings", PyList [])])).
  { intros Hnone. rewrite get_meter_readings_unfold, Hc, Hs. cbn [fst].
    unfold select_readings.
    destruct (select_reading_rows mid (datetime_now_minus_hours (db_now env) hours) db)
      as [|r rows] eqn:Hrows; [reflexivity|].
    exfalso.
    assert (Hr : r ∈ select_reading_rows mid
                       (datetime_now_minus_hours (db_now env) hours) db)
      by (rewrite Hrows; apply list_elem_of_here).
    apply elem_of_select_reading_rows in Hr as [Hw Hin]. exact (Hnone r Hin Hw). }
  split; [exact Hempty|]. split.
  - intros Hnone _. apply Hempty. intros r Hin [Hm _]. exact (Hnone r Hin Hm).
  - intros db2 Heq. rewrite !get_meter_readings_unfold, Hc, Hs. cbn [fst].
    unfold select_readings, select_reading_rows. now rewrite Heq.
Qed.

(** A listed meter that has no readings, and a meter the store has never
    heard of. *)
Lemma unknown_meter_gives_empty_readings_witness :
  (get_meter_readings sample_env "meter_001" 24 sample_store).1
  = Ok (PyDict [("meter_id", PyStr "meter_001"); ("readings", PyList [])]) /\
  (get_meter_readings sample_env unknown_meter 24 sample_store).1
  = Ok (PyDict [("meter_id", PyStr unknown_meter); ("readings", PyList [])]).
Proof.
  split.
  - apply (proj1 (unknown_meter_gives_empty_readings sample_env "meter_001" 24
                    sample_store eq_refl eq_refl)).
    intros r Hr. now apply elem_of_nil in Hr.
  - apply (proj1 (proj2 (unknown_meter_gives_empty_readings sample_env unknown_meter
                           24 sample_store eq_refl eq_refl))).
    + intros r Hr. now apply elem_of_nil in Hr.
    + vm_compute. intros H. repeat (inversion H as [|? ? ? H']; subst; clear H; rename H' into H).
Defined.

(** ** From the payload to the response and back *)

Lemma entry_value_column r g k col :
  (k, col) ∈ group_columns g ->
  entry_value (reading_entry (reading_columns r)) g k = Some (to_py (sql_real (col r))).
Proof. intros H. destruct g; split_columns H; reflexivity. Qed.

Lemma group_key_column g k :
  k ∈ group_keys g -> exists col, (k, col) ∈ group_columns g.
Proof.
  unfold group_keys. intros ([k' col] & -> & Hin)%list_elem_of_fmap. now exists col.
Qed.

Lemma sqlite_real_ordinary f :
  PrimFloat.is_nan f = false -> PrimFloat.eqb f 0%float = false ->
  sqlite_real (Some f) = Some f.
Proof. intros H1 H2. unfold sqlite_real. now rewrite H1, H2. Qed.

Lemma response_readings_rows env mid hours db :
  faults env Connect = None ->
  faults env Select = None ->
  response_readings (get_meter_readings env mid hours db).1
  = reading_entry <$> (reading_columns <$>
      select_reading_rows mid (datetime_now_minus_hours (db_now env) hours) db).
Proof. intros Hc Hs. rewrite get_meter_readings_unfold, Hc, Hs. reflexivity. Qed.

(** The new row is returned when at most 100 rows of the window are at least
    as new. *)
Lemma new_row_selected mid bound (db : Store) (x : MeterReading) :
  x ∈ meter_readings db ->
  r_meter_id x = mid ->
  text_le bound (r_timestamp x) ->
  (length (filter (fun r => r_meter_id r = mid /\ text_le (r_timestamp x) (r_timestamp r))
                  (meter_readings db)) <= 100)%nat ->
  x ∈ select_reading_rows mid (Some bound) db.
Proof.
  intros Hin Hm Hb Hcount. unfold select_reading_rows.
  apply (elem_of_take_sorted newer_first).
  - apply StronglySorted_merge_sort; apply _.
  - apply elem_of_sorted_window. split; [|assumption]. split; assumption.
  - erewrite Permutation_length
      by (apply filter_Permutation; apply merge_sort_Permutation).
    rewrite list_filter_filter.
    erewrite list_filter_iff; [exact Hcount|].
    intros r. unfold newer_first, in_window. split.
    + intros [Hn [Hr _]]. split; assumption.
    + intros [Hr Hn]. split; [assumption|]. split; [assumption|].
      eapply text_le_trans; eassumption.
Qed.

(** C1, as the code has it: after a successful ingestion, a readings query
    for the payload's meter whose window reaches back to the stored timestamp
    returns the reading, provided at most 100 readings of that meter are as
    new or newer. Its entry carries, under every key, the value the payload
    gave as a REAL column holds it: None for a key the payload lacks, the
    float itself for an ordinary float (a NaN comes back as None, a negative
    zero as 0.0). *)
Theorem reading_roundtrip (env env' : Env) (data : MeterData) (db : Store)
    (hours : Z) (dt : datetime) (bound : string) :
  (forall st, faults env st = None) ->
  fromisoformat (replace_Z (timestamp data)) = Some dt ->
  faults env' Connect = None ->
  faults env' Select = None ->
  datetime_now_minus_hours (db_now env') hours = Some bound ->
  text_le bound (strftime dt) ->
  (length (filter (fun r => r_meter_id r = meter_id data /\
                            text_le (strftime dt) (r_timestamp r))
                  (meter_readings (receive_meter_data env data db).2)) <= 100)%nat ->
  exists e,
    e ∈ response_readings
          (get_meter_readings env' (meter_id data) hours
             (receive_meter_data env data db).2).1 /\
    py_get "timestamp" e = Some (PyStr (strftime dt)) /\
    (forall g k, k ∈ group_keys g ->
       entry_value e g k
       = Some (to_py (sql_real (sqlite_real (payload_value data g k))))) /\
    py_get "frequency" e = Some (to_py (sql_real (sqlite_real (frequency data)))) /\
    (forall g k, k ∈ group_keys g -> payload_value data g k = None ->
       entry_value e g k = Some PyNone) /\
    (forall g k f, k ∈ group_keys g -> payload_value data g k = Some f ->
       PrimFloat.is_nan f = false -> PrimFloat.eqb f 0%float = false ->
       entry_value e g k = Some (PyFloat f)).
Proof.
  intros Hf Hdt Hc Hs Hbound Hle.
  rewrite receive_meter_data_unfold, (first_exception_no_faults _ _ Hf),
    (parse_timestamp_ok _ _ Hdt). cbn [snd]. intros Hcount.
  set (x := reading_row (readings_seq db + 1) data (strftime dt)).
  set (db' := upsert_meter_status env (meter_id data) (strftime (utcnow env))
                (insert_reading data (strftime dt) db)) in *.
  assert (Hx : x ∈ meter_readings db').
  { subst db'. cbn. apply elem_of_app. right. apply list_elem_of_here. }
  assert (Hvalue : forall g k, k ∈ group_keys g ->
            entry_value (reading_entry (reading_columns x)) g k
            = Some (to_py (sql_real (sqlite_real (payload_value data g k))))).
  { intros g k Hk. destruct (group_key_column g k Hk) as [col Hcol].
    rewrite (entry_value_column _ _ _ _ Hcol). subst x.
    now rewrite (reading_row_column _ _ _ _ _ _ Hcol). }
  exists (reading_entry (reading_columns x)).
  split; [|split; [|split; [|split; [|split]]]].
  - rewrite response_readings_rows, Hbound by assumption.
    do 2 apply list_elem_of_fmap_2.
    apply new_row_selected; [exact Hx | reflexivity | exact Hle | exact Hcount].
  - reflexivity.
  - exact Hvalue.
  - reflexivity.
  - intros g k Hk Hnone. now rewrite (Hvalue g k Hk), Hnone.
  - intros g k f Hk Hsome Hnan Hzero.
    now rewrite (Hvalue g k Hk), Hsome, (sqlite_real_ordinary f Hnan Hzero).
Qed.

(** The example of the specification: one ingestion after start-up, read back
    over a window of 100000 hours. *)
Lemma reading_roundtrip_witness :
  exists e,
    e ∈ response_readings
          (get_meter_readings sample_env "meter_001" 100000
             (receive_meter_data sample_env sample_payload sample_store).2).1 /\
    py_get "timestamp" e = Some (PyStr "2024-01-01 12:00:00") /\
    entry_value e Voltages "V_RN" = Some (PyFloat 230.1%float) /\
    entry_value e Voltages "V_YN" = Some PyNone /\
    py_get "frequency" e = Some (PyFloat 50%float).
Proof.
  destruct (reading_roundtrip sample_env sample_env sample_payload sample_store
              100000 (mk_datetime 2024 1 1 12 0 0 0 (Some 0)) "2013-01-03 18:00:00")
    as (e & He & Hts & Hval & Hfreq & Hnone & Hsome).
  - reflexivity.
  - reflexivity.
  - reflexivity.
  - reflexivity.
  - vm_compute. reflexivity.
  - vm_compute. reflexivity.
  - vm_compute. lia.
  - exists e. split; [exact He|]. split; [exact Hts|]. split; [|split].
    + apply (Hsome Voltages "V_RN");
        [apply list_elem_of_here | reflexivity | reflexivity | reflexivity].
    + apply (Hnone Voltages "V_YN");
        [apply list_elem_of_further, list_elem_of_here | reflexivity].
    + exact Hfreq.
Defined.

(** A returned row has fewer than 100 rows of its meter that are strictly
    newer. *)
Lemma selected_row_rank mid bound (db : Store) (x : MeterReading) :
  x ∈ select_reading_rows mid bound db ->
  (length (filter (fun r => r_meter_id r = mid /\
                            ~ text_le (r_timestamp r) (r_timestamp x))
                  (meter_readings db)) < 100)%nat.
Proof.
  intros Hx.
  destruct (elem_of_select_reading_rows _ _ _ _ Hx) as [[Hm Hb] Hin].
  destruct bound as [b|]; [|contradiction].
  unfold select_reading_rows in Hx.
  destruct (decide (100 <= length (filter (fun r => r_meter_id r = mid /\
                                     ~ text_le (r_timestamp r) (r_timestamp x))
                                  (meter_readings db)))%nat) as [Hge|]; [|lia].
  exfalso. revert Hx.
  apply (not_elem_of_take_sorted newer_first).
  - apply StronglySorted_merge_sort; apply _.
  - erewrite Permutation_length
      by (apply filter_Permutation; apply merge_sort_Permutation).
    rewrite list_filter_filter.
    erewrite list_filter_iff; [exact Hge|].
    intros r. unfold newer_first, in_window. split.
    + intros [Hn [Hr _]]. split; assumption.
    + intros [Hr Hn]. split; [assumption|]. split; [assumption|].
      destruct (text_le_total (r_timestamp r) (r_timestamp x)); [contradiction|].
      eapply text_le_trans; eassumption.
Qed.

(** C1 as stated fails: with a hundred newer readings of the meter in the
    store, the reading just ingested is returned by no query, however long
    its window. *)
Lemma roundtrip_lost_beyond_limit :
  let db' := (receive_meter_data sample_env sample_payload crowded_store).2 in
  (receive_meter_data sample_env sample_payload crowded_store).1 = Ok success_response /\
  datetime_now_minus_hours (db_now sample_env) 100000 = Some "2013-01-03 18:00:00" /\
  length (response_readings (get_meter_readings sample_env "meter_001" 100000 db').1)
  = 100%nat /\
  forall hours e,
    e ∈ response_readings (get_meter_readings sample_env "meter_001" hours db').1 ->
    py_get "timestamp" e <> Some (PyStr "2024-01-01 12:00:00").
Proof.
  intros db'. split; [vm_compute; reflexivity|]. split; [vm_compute; reflexivity|].
  split; [vm_compute; reflexivity|].
  intros hours e He Hts.
  rewrite response_readings_rows in He by reflexivity.
  apply list_elem_of_fmap in He as (cols & -> & He).
  apply list_elem_of_fmap in He as (r & -> & Hr).
  rewrite reading_entry_timestamp in Hts. injection Hts as Hts.
  apply selected_row_rank in Hr.
  assert (Hrank :
    (length (filter (fun y => r_meter_id y = "meter_001" /\
                              ~ text_le (r_timestamp y) "2024-01-01 12:00:00")
                    (meter_readings db')) < 100)%nat).
  { erewrite list_filter_iff; [exact Hr|]. intros y. now rewrite Hts. }
  revert Hrank. subst db'. vm_compute. lia.
Qed.

(** ** Writing and reading timestamps *)

Lemma digit_val_digit_char d :
  0 <= d <= 9 -> digit_val (digit_char d) = Some d.
Proof.
  intros H.
  assert (Hd : d = 0 \/ d = 1 \/ d = 2 \/ d = 3 \/ d = 4 \/ d = 5 \/ d = 6 \/
               d = 7 \/ d = 8 \/ d = 9) by lia.
  repeat (destruct Hd as [->|Hd]; [reflexivity|]). now subst.
Qed.

Lemma append_String c s r : String c s +:+ r = String c (s +:+ r).
Proof. reflexivity. Qed.

Lemma append_empty_l r : "" +:+ r = r.
Proof. reflexivity. Qed.

Lemma parse_fmt_digits n v rest acc :
  parse_digits n (fmt_digits n v +:+ rest) acc
  = Some (acc * 10 ^ Z.of_nat n + v mod 10 ^ Z.of_nat n, rest).
Proof.
  revert acc. induction n as [|k IH]; intros acc.
  - cbn. rewrite Z.mod_1_r. do 2 f_equal. lia.
  - cbn [fmt_digits]. rewrite append_String. cbn [parse_digits].
    rewrite digit_val_digit_char
      by (pose proof (Z.mod_pos_bound (v / 10 ^ Z.of_nat k) 10); lia).
    rewrite IH. do 2 f_equal.
    rewrite Nat2Z.inj_succ, Z.pow_succ_r by lia.
    rewrite (Z.mul_comm 10), Z.rem_mul_r by lia. ring.
Qed.

Lemma parse_fmt_digits_small n v rest :
  0 <= v < 10 ^ Z.of_nat n ->
  parse_digits n (fmt_digits n v +:+ rest) 0 = Some (v, rest).
Proof. intros H. rewrite parse_fmt_digits, Z.mod_small by assumption. reflexivity. Qed.

Lemma append_empty_r s : s +:+ "" = s.
Proof.
  induction s as [|c s IH]; [reflexivity|]. now rewrite append_String, IH.
Qed.

(** A field followed by its separator. *)
Lemma parse_fmt_digits_sep n v c rest :
  0 <= v < 10 ^ Z.of_nat n ->
  parse_digits n (fmt_digits n v +:+ String c "" +:+ rest) 0 = Some (v, String c rest).
Proof. intros H. now rewrite parse_fmt_digits_small. Qed.

(** The last field. *)
Lemma parse_fmt_digits_end n v :
  0 <= v < 10 ^ Z.of_nat n ->
  parse_digits n (fmt_digits n v) 0 = Some (v, "").
Proof.
  intros H. rewrite <- (append_empty_r (fmt_digits n v)).
  now apply parse_fmt_digits_small.
Qed.

Lemma check_fields_bounds dt :
  check_fields dt = true ->
  1 <= year dt <= 9999 /\ 1 <= month dt <= 12 /\ 1 <= day dt <= 31 /\
  0 <= hour dt <= 23 /\ 0 <= minute dt <= 59 /\ 0 <= second dt <= 59 /\
  0 <= microsecond dt <= 999999.
Proof.
  unfold check_fields. rewrite !andb_true_iff, !Z.leb_le.
  intros [[[[[[[[[[[[[[? ?] ?] ?] ?] Hd] ?] ?] ?] ?] ?] ?] ?] ?] _].
  assert (Calendar.days_in_month (year dt) (month dt) <= 31).
  { unfold Calendar.days_in_month.
    repeat match goal with |- context [if ?b then _ else _] => destruct b end; lia. }
  lia.
Qed.

Lemma check_fields_to_seconds dt :
  check_fields dt = true -> check_fields (to_seconds_naive dt) = true.
Proof.
  unfold check_fields. cbn. rewrite !andb_true_iff.
  intros [[[[[[[[[[[[[[? ?] ?] ?] ?] ?] ?] ?] ?] ?] ?] ?] _] _] _].
  repeat split; assumption.
Qed.

Lemma fromisoformat_checked s dt : fromisoformat s = Some dt -> check_fields dt = true.
Proof.
  unfold fromisoformat. destruct (parse_isoformat s) as [dt'|]; [|discriminate].
  destruct (check_fields dt') eqn:E; [|discriminate]. now intros [= <-].
Qed.

(** From the year 1000 on, [%Y] writes four digits. *)
Lemma strftime_iso_seconds dt :
  1000 <= year dt <= 9999 -> strftime dt = iso_seconds dt.
Proof.
  intros H. unfold strftime, iso_seconds, fmt_decimal.
  assert (H1 : (year dt <? 10) = false) by (apply Z.ltb_ge; lia).
  assert (H2 : (year dt / 10 <? 10) = false)
    by (apply Z.ltb_ge, Z.div_le_lower_bound; lia).
  assert (H3 : (year dt / 10 / 10 <? 10) = false)
    by (apply Z.ltb_ge; do 2 (apply Z.div_le_lower_bound; [lia|]); lia).
  assert (H4 : (year dt / 10 / 10 / 10 <? 10) = true)
    by (apply Z.ltb_lt; do 3 (apply Z.div_lt_upper_bound; [lia|]); lia).
  cbn [decimal_width]. rewrite H1, H2, H3, H4. reflexivity.
Qed.

Lemma length_fmt_digits n v : String.length (fmt_digits n v) = n.
Proof. induction n as [|k IH]; cbn; [reflexivity|now rewrite IH]. Qed.

Lemma length_string_append s1 s2 :
  String.length (s1 +:+ s2) = (String.length s1 + String.length s2)%nat.
Proof.
  induction s1 as [|c s1 IH]; [reflexivity|].
  rewrite append_String. cbn [String.length]. now rewrite IH.
Qed.

(** A digit is none of the other bytes the parser looks for. *)
Lemma digit_char_is_not d c :
  0 <= d <= 9 -> digit_val c = None -> Ascii.eqb (digit_char d) c = false.
Proof.
  intros Hd Hc. destruct (Ascii.eqb (digit_char d) c) eqn:E; [|reflexivity].
  apply Ascii.eqb_eq in E. subst c. rewrite digit_val_digit_char in Hc by assumption.
  discriminate.
Qed.

Lemma digit_bound v k : 0 <= (v / 10 ^ Z.of_nat k) mod 10 <= 9.
Proof. pose proof (Z.mod_pos_bound (v / 10 ^ Z.of_nat k) 10). lia. Qed.

(** A date that starts [YYYY-D], in a string that is not 7 bytes long, ends
    at byte 10. *)
Lemma find_separator_dashed c0 c1 c2 c3 c5 r :
  String.length r <> 1%nat ->
  Ascii.eqb c5 "W" = false ->
  find_isoformat_datetime_separator
    (String c0 (String c1 (String c2 (String c3 (String "-" (String c5 r))))))
  = Some 10%nat.
Proof.
  intros Hlen HW. unfold find_isoformat_datetime_separator.
  cbn [String.length advance_by advance peek]. rewrite HW, Ascii.eqb_refl.
  destruct (Nat.eqb_spec (S (S (S (S (S (S (String.length r))))))) 7); [lia|reflexivity].
Qed.

Lemma peek_fmt_digits_is_not n v r c :
  digit_val c = None -> Ascii.eqb (peek (fmt_digits (S n) v +:+ r)) c = false.
Proof. intros H. apply digit_char_is_not; [apply digit_bound|exact H]. Qed.

Lemma find_tz_fmt_digits n v r :
  find_tz (fmt_digits n v +:+ r) = (n + find_tz r)%nat.
Proof.
  induction n as [|k IH]; [reflexivity|].
  cbn [fmt_digits]. rewrite append_String. cbn [find_tz].
  unfold is_tz_char. rewrite !digit_char_is_not by (apply digit_bound || reflexivity).
  cbn [orb]. now rewrite IH.
Qed.



(** One round of the loop on a field of two digits. *)
Lemma parse_components_field k first hs v r n vals :
  0 <= v < 100 ->
  parse_components (S k) first hs (fmt_digits 2 v +:+ r) n vals
  = let c := peek r in
    let has_separator := if first then Ascii.eqb c ":" else hs in
    if n - 3 <=? 0 then Some ((vals ++ [v])%list, 0, negb (Ascii.eqb c "000"))
    else if has_separator && Ascii.eqb c ":"
    then parse_components k false has_separator (advance r) (n - 3) (vals ++ [v])%list
    else if Ascii.eqb c "." || Ascii.eqb c ","
    then parse_fraction (advance r) (n - 3) (vals ++ [v])%list
    else if negb has_separator
    then parse_components k false has_separator r (n - 2) (vals ++ [v])%list
    else None.
Proof.
  intros Hv. cbn [parse_components].
  rewrite parse_fmt_digits_small by (cbn; lia). reflexivity.
Qed.

Lemma parse_isoformat_time_seconds h mi sec :
  0 <= h < 100 -> 0 <= mi < 100 -> 0 <= sec < 100 ->
  parse_isoformat_time
    (fmt_digits 2 h +:+ String ":" (fmt_digits 2 mi +:+ String ":" (fmt_digits 2 sec)))
  = Some (h, mi, sec, 0, None).
Proof.
  intros Hh Hmi Hs. rewrite <- (append_empty_r (fmt_digits 2 sec)).
  set (T := fmt_digits 2 h +:+ String ":" (fmt_digits 2 mi +:+ String ":" (fmt_digits 2 sec +:+ ""))).
  assert (Htz : find_tz T = 8%nat).
  { subst T.
    rewrite find_tz_fmt_digits. cbn [find_tz]. change (is_tz_char ":") with false.
    cbv iota. rewrite find_tz_fmt_digits. cbn [find_tz]. change (is_tz_char ":") with false.
    cbv iota. rewrite find_tz_fmt_digits. reflexivity. }
  assert (Hlen : String.length T = 8%nat).
  { subst T. repeat (rewrite length_string_append || rewrite length_fmt_digits
                     || cbn [String.length]). reflexivity. }
  unfold parse_isoformat_time. cbv zeta. rewrite Htz, Hlen.
  change (8 =? 8)%nat with true. cbv iota.
  unfold parse_hh_mm_ss_ff. subst T.
  rewrite parse_components_field by assumption. cbv zeta. cbn [peek advance].
  change (Z.of_nat 8 - 3 <=? 0) with false. change (Ascii.eqb ":" ":") with true.
  cbv iota. cbn [andb].
  rewrite parse_components_field by assumption. cbv zeta. cbn [peek advance].
  change (Z.of_nat 8 - 3 - 3 <=? 0) with false. change (Ascii.eqb ":" ":") with true.
  cbv iota. cbn [andb].
  rewrite parse_components_field by assumption. cbv zeta. cbn [peek advance].
  change (Z.of_nat 8 - 3 - 3 - 3 <=? 0) with true. cbv iota.
  reflexivity.
Qed.

Lemma parse_isoformat_date_dashed y m d r len :
  0 <= y < 10000 -> 0 <= m < 100 -> 0 <= d < 100 ->
  parse_isoformat_date
    (fmt_digits 4 y +:+ String "-" (fmt_digits 2 m +:+ String "-" (fmt_digits 2 d +:+ r))) len
  = Some (y, m, d).
Proof.
  intros Hy Hm Hd. unfold parse_isoformat_date.
  rewrite parse_fmt_digits_small by (cbn; lia). cbv beta iota zeta.
  cbn [peek advance]. change (Ascii.eqb "-" "-") with true. cbv iota.
  rewrite peek_fmt_digits_is_not by reflexivity.
  rewrite parse_fmt_digits_small by (cbn; lia). cbv beta iota zeta.
  cbn [peek advance]. change (Ascii.eqb "-" "-") with true. cbn [andb negb]. cbv iota.
  rewrite parse_fmt_digits_small by (cbn; lia). reflexivity.
Qed.

Lemma parse_isoformat_seconds y m d h mi sec :
  0 <= y < 10000 -> 0 <= m < 100 -> 0 <= d < 100 ->
  0 <= h < 100 -> 0 <= mi < 100 -> 0 <= sec < 100 ->
  parse_isoformat
    (fmt_digits 4 y +:+ String "-" (fmt_digits 2 m +:+ String "-" (fmt_digits 2 d +:+
     String " " (fmt_digits 2 h +:+ String ":" (fmt_digits 2 mi +:+ String ":"
       (fmt_digits 2 sec))))))
  = Some (mk_datetime y m d h mi sec 0 None).
Proof.
  intros Hy Hm Hd Hh Hmi Hs. unfold parse_isoformat.
  set (T := fmt_digits 2 h +:+ String ":" (fmt_digits 2 mi +:+ String ":" (fmt_digits 2 sec))).
  assert (HT : String.length T = 8%nat).
  { subst T. repeat (rewrite length_string_append || rewrite length_fmt_digits
                     || cbn [String.length]). reflexivity. }
  set (s := fmt_digits 4 y +:+ _).
  assert (Hsep : find_isoformat_datetime_separator s = Some 10%nat).
  { subst s. cbn [fmt_digits]. rewrite !append_String, !append_empty_l.
    apply find_separator_dashed.
    - cbn [String.length]. rewrite HT. lia.
    - apply digit_char_is_not; [apply digit_bound|reflexivity]. }
  rewrite Hsep.
  assert (Hlen : String.length s = 19%nat).
  { subst s. repeat (rewrite length_string_append || rewrite length_fmt_digits
                     || cbn [String.length]). rewrite HT. reflexivity. }
  rewrite Hlen.
  subst s. rewrite parse_isoformat_date_dashed by assumption.
  change (10 <? 19)%nat with true. cbv iota zeta.
  assert (Hadv : advance_by 10
            (fmt_digits 4 y +:+ String "-" (fmt_digits 2 m +:+ String "-"
               (fmt_digits 2 d +:+ String " " T))) = String " " T).
  { cbn [fmt_digits]. rewrite !append_String, !append_empty_l. reflexivity. }
  rewrite Hadv. cbn [peek]. change (utf8_width " ") with 1%nat.
  cbn [advance_by advance]. subst T.
  rewrite parse_isoformat_time_seconds by assumption. reflexivity.
Qed.

(** The fixed-width text reads back as the fields it was written from. *)
Lemma fromisoformat_iso_seconds dt :
  check_fields dt = true ->
  fromisoformat (iso_seconds dt) = Some (to_seconds_naive dt).
Proof.
  intros Hok. pose proof (check_fields_bounds dt Hok) as (Hy & Hm & Hd & Hh & Hmi & Hs & _).
  unfold fromisoformat.
  assert (Hp : parse_isoformat (iso_seconds dt) = Some (to_seconds_naive dt)).
  { unfold iso_seconds. rewrite !append_String, !append_empty_l.
    apply parse_isoformat_seconds; lia. }
  rewrite Hp. now rewrite (check_fields_to_seconds dt Hok).
Qed.

Lemma replace_Z_trailing s : replace_Z (s +:+ "Z") = replace_Z s +:+ "+00:00".
Proof.
  induction s as [|c s IH]; [reflexivity|].
  rewrite append_String. cbn [replace_Z]. rewrite IH.
  destruct (Ascii.eqb c "Z"); reflexivity.
Qed.

(** What the fixed-width text denotes, against the fields of [dt]. *)
Lemma stored_instant_iso_seconds dt :
  check_fields dt = true ->
  stored_instant_us (iso_seconds dt) = Some (wall_clock_us dt - microsecond dt).
Proof.
  intros Hok. unfold stored_instant_us. rewrite (fromisoformat_iso_seconds dt Hok).
  unfold wall_clock_us, to_seconds_naive. cbn. f_equal. lia.
Qed.

Lemma wall_clock_us_mod dt :
  check_fields dt = true ->
  wall_clock_us dt mod 1000000 = microsecond dt.
Proof.
  intros Hok. pose proof (check_fields_bounds dt Hok) as (_ & _ & _ & _ & _ & _ & Hus).
  unfold wall_clock_us. rewrite Z.add_comm, Z.mod_add by lia.
  apply Z.mod_small. lia.
Qed.

(** C2, as the code has it: the timestamp of the payload, with every [Z]
    replaced by [+00:00], goes through [fromisoformat]; if that fails the
    call answers with an error and stores nothing, otherwise one reading is
    stored. When the parsed timestamp carries no UTC offset other than zero
    (as with a trailing [Z]) and its year is 1000 or later, the reading is
    stored under the parsed date and time of day written as
    ["YYYY-MM-DD HH:MM:SS"], which reads back as those fields and, read as
    UTC, denotes the instant of the payload cut down to the whole second. *)
Theorem stored_timestamp_is_parsed_wall_clock (env : Env) (data : MeterData) (db : Store) :
  (forall st, faults env st = None) ->
  (forall s, timestamp data = s +:+ "Z" ->
     replace_Z (timestamp data) = replace_Z s +:+ "+00:00") /\
  match fromisoformat (replace_Z (timestamp data)) with
  | None =>
      exists msg,
        receive_meter_data env data db = (Ok (error_response (ValueError msg)), db)
  | Some dt =>
      exists row,
        (receive_meter_data env data db).1 = Ok success_response /\
        meter_readings (receive_meter_data env data db).2
        = (meter_readings db ++ [row])%list /\
        ((forall off, tzinfo dt = Some off -> off = 0) ->
         1000 <= year dt ->
         r_timestamp row = iso_seconds dt /\
         fromisoformat (r_timestamp row) = Some (to_seconds_naive dt) /\
         (forall t, instant_us dt = Some t ->
            stored_instant_us (r_timestamp row) = Some (t - t mod 1000000)))
  end.
Proof.
  intros Hf. split; [intros s ->; apply replace_Z_trailing|].
  rewrite receive_meter_data_unfold, (first_exception_no_faults _ _ Hf).
  destruct (fromisoformat (replace_Z (timestamp data))) as [dt|] eqn:Hdt.
  - rewrite (parse_timestamp_ok _ _ Hdt).
    pose proof (fromisoformat_checked _ _ Hdt) as Hok.
    exists (reading_row (readings_seq db + 1) data (strftime dt)).
    split; [reflexivity|]. split; [reflexivity|].
    intros Htz Hy. cbn [r_timestamp reading_row].
    pose proof (check_fields_bounds dt Hok) as (Hyear & _).
    rewrite (strftime_iso_seconds dt) by lia.
    split; [reflexivity|].
    split; [now apply fromisoformat_iso_seconds|].
    intros t Ht. unfold instant_us in Ht.
    destruct (tzinfo dt) as [off|]; [|discriminate].
    rewrite (Htz off eq_refl) in Ht. injection Ht as <-.
    rewrite (stored_instant_iso_seconds dt Hok).
    rewrite Z.sub_0_r, (wall_clock_us_mod dt Hok). reflexivity.
  - destruct (parse_timestamp_raises _ Hdt) as [msg Hmsg]. rewrite Hmsg.
    exists msg. reflexivity.
Qed.

(** The example of the specification: [2024-01-01T12:00:00Z]. *)
Lemma stored_timestamp_is_parsed_wall_clock_witness :
  exists row,
    meter_readings (receive_meter_data sample_env sample_payload sample_store).2 = [row] /\
    r_timestamp row = "2024-01-01 12:00:00" /\
    stored_instant_us (r_timestamp row) = Some 1704110400000000.
Proof.
  pose proof (stored_timestamp_is_parsed_wall_clock sample_env sample_payload
                sample_store (fun _ => eq_refl)) as [_ H].
  change (fromisoformat (replace_Z (timestamp sample_payload)))
    with (Some (mk_datetime 2024 1 1 12 0 0 0 (Some 0))) in H.
  destruct H as (row & _ & Hrows & Hshape).
  destruct Hshape as (Hts & _ & Hinst).
  - intros off [= <-]. reflexivity.
  - cbn. lia.
  - exists row. split; [exact Hrows|]. split; [exact Hts|].
    exact (Hinst 1704110400000000 eq_refl).
Defined.

(** C2 as stated fails: a timestamp with offset +05:30 is stored under its
    local time of day, five and a half hours after the instant it denotes;
    a timestamp with milliseconds is stored without them; and a timestamp
    of the year 999 is stored with a year of three digits, a text that is no
    ["YYYY-MM-DD HH:MM:SS"] and reads back as no date at all. *)
Lemma stored_timestamp_not_same_instant :
  (exists dt row t,
      fromisoformat (replace_Z (timestamp offset_payload)) = Some dt /\
      instant_us dt = Some t /\
      meter_readings (receive_meter_data sample_env offset_payload sample_store).2 = [row] /\
      r_timestamp row = "2024-01-01 12:00:00" /\
      stored_instant_us (r_timestamp row) = Some (t + 19800 * 1000000) /\
      stored_instant_us (r_timestamp row) <> Some t) /\
  (exists dt row t,
      fromisoformat (replace_Z (timestamp millisecond_payload)) = Some dt /\
      instant_us dt = Some t /\
      meter_readings (receive_meter_data sample_env millisecond_payload sample_store).2
      = [row] /\
      r_timestamp row = "2024-01-01 12:00:00" /\
      stored_instant_us (r_timestamp row) = Some (t - 500000) /\
      stored_instant_us (r_timestamp row) <> Some t) /\
  (exists dt row t,
      fromisoformat (replace_Z (timestamp early_payload)) = Some dt /\
      instant_us dt = Some t /\
      meter_readings (receive_meter_data sample_env early_payload sample_store).2 = [row] /\
      r_timestamp row = "999-12-31 23:59:59" /\
      String.length (r_timestamp row) = 18%nat /\
      stored_instant_us (r_timestamp row) = None).
Proof.
  split; [|split].
  - eexists _, _, _. split; [vm_compute; reflexivity|].
    split; [vm_compute; reflexivity|]. split; [vm_compute; reflexivity|].
    split; [reflexivity|]. split; [vm_compute; reflexivity|].
    vm_compute. discriminate.
  - eexists _, _, _. split; [vm_compute; reflexivity|].
    split; [vm_compute; reflexivity|]. split; [vm_compute; reflexivity|].
    split; [reflexivity|]. split; [vm_compute; reflexivity|].
    vm_compute. discriminate.
  - eexists _, _, _. split; [vm_compute; reflexivity|].
    split; [vm_compute; reflexivity|]. split; [vm_compute; reflexivity|].
    split; [reflexivity|]. split; vm_compute; reflexivity.
Qed.

(** ** The properties on the sample store *)

(** The first ingestion for [meter_001] after start-up. *)
Lemma status_upsert_on_success_witness :
  exists row,
    status_rows "meter_001" (receive_meter_data sample_env sample_payload sample_store).2
    = [row] /\
    s_online row = Some true /\
    s_last_update row = Some "2024-06-01 10:00:00".
Proof.
  destruct (status_upsert_on_success sample_env sample_payload sample_store
              (receive_meter_data sample_env sample_payload sample_store).2
              success_response)
    as (_ & (row & H1 & _ & H2 & H3 & _) & _).
  - apply NoDup_nil_2.
  - vm_compute. reflexivity.
  - reflexivity.
  - exists row. split; [exact H1|]. split; [exact H2|exact H3].
Defined.

(** The listing after one ingestion: four active meters. *)
Lemma get_meters_lists_active_meters_witness :
  exists entries,
    get_meters sample_env (receive_meter_data sample_env sample_payload sample_store).2
    = (Ok (PyDict [("meters", PyList entries)]),
       (receive_meter_data sample_env sample_payload sample_store).2) /\
    length entries = 4%nat.
Proof.
  destruct (get_meters_lists_active_meters sample_env
              (receive_meter_data sample_env sample_payload sample_store).2
              eq_refl eq_refl) as (entries & H1 & _ & _ & _ & H5).
  exists entries. split; [exact H1|].
  rewrite H5; [reflexivity|]. vm_compute. apply NoDup_singleton.
Defined.

(** A meter switched off is not listed; the others are, offline until their
    first reading. *)
Example get_meters_skips_inactive :
  (get_meters sample_env
     (mk_Store [mk_Meter "meter_001" None None (Some true);
                mk_Meter "meter_002" None None (Some false);
                mk_Meter "meter_003" None None None]
               [] 0
               [mk_MeterStatus "meter_002" (Some true) (Some "2024-06-01 09:00:00") None])).1
  = Ok (PyDict [("meters",
                 PyList [PyDict [("meter_id", PyStr "meter_001");
                                 ("online", PyBool false);
                                 ("last_update", PyNone)]])]).
Proof. reflexivity. Qed.

(** A thousand hours of readings requests and start-ups later, the status
    row written by the first ingestion is still online. *)
Lemma online_is_latched_witness :
  exists st,
    meter_status
      (run_requests (receive_meter_data sample_env sample_payload sample_store).2
         [GetMeters sample_env; GetReadings sample_env "meter_001" 1000;
          Startup (sample_now + 3600000);
          PostMeterData failing_upsert_env sample_payload]) !! 0%nat = Some st /\
    s_meter_id st = "meter_001" /\ s_online st = Some true.
Proof.
  destruct (proj1 (online_is_latched
                     (receive_meter_data sample_env sample_payload sample_store).2
                     [GetMeters sample_env; GetReadings sample_env "meter_001" 1000;
                      Startup (sample_now + 3600000);
                      PostMeterData failing_upsert_env sample_payload])
              0%nat
              (mk_MeterStatus "meter_001" (Some true) (Some "2024-06-01 10:00:00")
                 (Some "2024-06-01 10:00:00"))
              eq_refl eq_refl) as (st & H1 & H2 & H3).
  exists st. split; [exact H1|]. split; [exact H2|exact H3].
Defined.

(** The sample payload has no [reactive_power]: the four columns are NULL,
    and a stray key in [voltages] changes nothing. *)
Lemma absent_keys_stored_null_witness :
  reactive_power_total (reading_row 1 sample_payload "2024-01-01 12:00:00") = None /\
  voltage_y (reading_row 1 sample_payload "2024-01-01 12:00:00") = None /\
  receive_meter_data sample_env
    (with_group sample_payload Voltages
       (Some (<["V_Extra" := Some 1%float]> (voltages sample_payload)))) sample_store
  = receive_meter_data sample_env sample_payload sample_store.
Proof.
  destruct (absent_keys_stored_null sample_env sample_payload sample_store)
    as (H1 & H2 & H3 & _).
  split; [|split].
  - apply (H2 ReactivePower "Q_Total");
      [do 3 apply list_elem_of_further; apply list_elem_of_here | reflexivity].
  - apply (H1 Voltages (voltages sample_payload) "V_YN");
      [apply list_elem_of_further, list_elem_of_here | reflexivity | reflexivity].
  - apply (H3 Voltages (voltages sample_payload)); [reflexivity|].
    vm_compute. intros H.
    repeat (inversion H as [|? ? ? H']; subst; clear H; rename H' into H).
Defined.


(** * Further properties of the code *)

(** ** Start-up *)

Lemma insert_or_ignore_meter_prefix now tbl row :
  tbl `prefix_of` insert_or_ignore_meter now tbl row.
Proof.
  unfold insert_or_ignore_meter. case_decide; [reflexivity|].
  now apply prefix_app_r.
Qed.

Lemma insert_or_ignore_meter_id now tbl row :
  row.1 ∈ m_id <$> insert_or_ignore_meter now tbl row.
Proof.
  unfold insert_or_ignore_meter. case_decide; [assumption|].
  rewrite fmap_app. apply elem_of_app. right. apply list_elem_of_here.
Qed.

Lemma seed_meters_prefix now rows tbl :
  tbl `prefix_of` foldl (insert_or_ignore_meter now) tbl rows.
Proof.
  revert tbl. induction rows as [|row rows IH]; intros tbl; [reflexivity|].
  cbn [foldl]. etransitivity; [apply insert_or_ignore_meter_prefix|apply IH].
Qed.

Lemma seed_meters_ids now rows tbl id :
  id ∈ rows.*1 -> id ∈ m_id <$> foldl (insert_or_ignore_meter now) tbl rows.
Proof.
  revert tbl. induction rows as [|row rows IH]; intros tbl Hin.
  - now apply elem_of_nil in Hin.
  - rewrite fmap_cons in Hin. cbn [foldl].
    apply elem_of_cons in Hin as [->|Hin]; [|now apply IH].
    pose proof (seed_meters_prefix now rows (insert_or_ignore_meter now tbl row))
      as [k ->].
    rewrite fmap_app. apply elem_of_app. left. apply insert_or_ignore_meter_id.
Qed.

Lemma seed_meters_noop now rows tbl :
  (forall id, id ∈ rows.*1 -> id ∈ m_id <$> tbl) ->
  foldl (insert_or_ignore_meter now) tbl rows = tbl.
Proof.
  induction rows as [|row rows IH]; intros Hall; [reflexivity|].
  cbn [foldl]. unfold insert_or_ignore_meter at 2.
  rewrite decide_True by (apply Hall; rewrite fmap_cons; apply list_elem_of_here).
  apply IH. intros id Hid. apply Hall. rewrite fmap_cons. now apply list_elem_of_further.
Qed.

Lemma seed_meters_NoDup now rows tbl :
  NoDup (m_id <$> tbl) -> NoDup (m_id <$> foldl (insert_or_ignore_meter now) tbl rows).
Proof.
  revert tbl. induction rows as [|row rows IH]; intros tbl Hnd; [exact Hnd|].
  cbn [foldl]. apply IH. unfold insert_or_ignore_meter. case_decide; [exact Hnd|].
  rewrite fmap_app. apply NoDup_app. split; [exact Hnd|]. split.
  - intros x Hx [->|[]%elem_of_nil]%elem_of_cons. contradiction.
  - apply NoDup_singleton.
Qed.

Lemma seed_meters_new now rows tbl m :
  m ∈ foldl (insert_or_ignore_meter now) tbl rows ->
  m ∈ tbl \/
  (exists row, row ∈ rows /\
     m = mk_Meter row.1 (Some row.2) (sqlite_datetime now) (Some true) /\
     row.1 ∉ m_id <$> tbl).
Proof.
  revert tbl. induction rows as [|row rows IH]; intros tbl Hin; [now left|].
  cbn [foldl] in Hin. apply IH in Hin as [Hin|(row' & Hrow' & -> & Hfresh)].
  - unfold insert_or_ignore_meter in Hin. case_decide as Hdec; [now left|].
    apply elem_of_app in Hin as [Hin|Hin]; [now left|].
    apply list_elem_of_singleton in Hin as ->. right.
    exists row. split; [apply list_elem_of_here|]. split; [reflexivity|exact Hdec].
  - right. exists row'. split; [now apply list_elem_of_further|].
    split; [reflexivity|]. intros Hin. apply Hfresh.
    pose proof (insert_or_ignore_meter_prefix now tbl row) as [k ->].
    rewrite fmap_app. apply elem_of_app. now left.
Qed.

(** X1: [init_database] can be run again at any later time without effect:
    a second start-up leaves the store exactly as the first one did. *)
Theorem init_database_idempotent (now1 now2 : Z) (db : Store) :
  init_database now2 (init_database now1 db) = init_database now1 db.
Proof.
  unfold init_database. cbn [meters meter_readings readings_seq meter_status].
  f_equal. apply seed_meters_noop. intros id Hid. now apply seed_meters_ids.
Qed.

(** X2: [init_database] keeps what the store holds: readings, counter and
    status rows are untouched and every meter row stays in place as it is
    (so a meter that was deactivated is not reactivated). Afterwards the four
    sample meters exist, a row it added is active and stamped with the
    store's clock, and meter ids that were unique still are. *)
Theorem init_database_keeps_existing (now : Z) (db : Store) :
  meter_readings (init_database now db) = meter_readings db /\
  readings_seq (init_database now db) = readings_seq db /\
  meter_status (init_database now db) = meter_status db /\
  (forall i m, meters db !! i = Some m -> meters (init_database now db) !! i = Some m) /\
  (forall id, id ∈ ["meter_001"; "meter_002"; "meter_003"; "meter_004"] ->
     id ∈ m_id <$> meters (init_database now db)) /\
  (forall m, m ∈ meters (init_database now db) ->
     m ∈ meters db \/
     ((m_id m ∉ m_id <$> meters db) /\ m_is_active m = Some true /\
      m_created_at m = sqlite_datetime now)) /\
  (meter_ids_unique db -> meter_ids_unique (init_database now db)).
Proof.
  split; [reflexivity|]. split; [reflexivity|]. split; [reflexivity|].
  unfold init_database, meter_ids_unique. cbn [meters].
  split; [|split; [|split]].
  - intros i m Hi. eapply prefix_lookup_Some; [exact Hi|apply seed_meters_prefix].
  - intros id Hid. now apply seed_meters_ids.
  - intros m Hm. apply seed_meters_new in Hm as [Hm|(row & _ & -> & Hfresh)];
      [now left|]. right. split; [exact Hfresh|]. split; reflexivity.
  - apply seed_meters_NoDup.
Qed.

(** A restart over a store where [meter_002] was switched off. *)
Lemma init_database_keeps_existing_witness :
  meters (init_database sample_now retired_store) !! 1%nat
  = Some (mk_Meter "meter_002" (Some "Old meter") None (Some false)) /\
  meter_ids_unique (init_database sample_now retired_store).
Proof.
  destruct (init_database_keeps_existing sample_now retired_store)
    as (_ & _ & _ & H4 & _ & _ & H7).
  split.
  - apply (H4 1%nat). reflexivity.
  - apply H7. unfold meter_ids_unique. cbn.
    apply NoDup_cons. split; [|apply NoDup_singleton].
    intros H%list_elem_of_singleton. discriminate.
Defined.

(** ** What requests do to the tables *)

(** A request leaves readings, counter and status rows alone, or it is an
    ingestion that went through. *)
Lemma handle_effect db rq :
  (meter_readings (handle db rq) = meter_readings db /\
   readings_seq (handle db rq) = readings_seq db /\
   meter_status (handle db rq) = meter_status db) \/
  (exists env data dt,
      rq = PostMeterData env data /\
      fromisoformat (replace_Z (timestamp data)) = Some dt /\
      handle db rq
      = upsert_meter_status env (meter_id data) (strftime (utcnow env))
          (insert_reading data (strftime dt) db)).
Proof.
  destruct rq as [now|env data|env|env mid hours]; cbn [handle].
  - left. repeat split.
  - rewrite receive_meter_data_unfold. unfold parse_timestamp.
    destruct (first_exception env data); [left; repeat split|].
    destruct (fromisoformat (replace_Z (timestamp data))) as [dt|] eqn:Hdt;
      [|left; repeat split].
    right. exists env, data, dt. split; [reflexivity|]. split; [exact Hdt|reflexivity].
  - rewrite get_meters_unfold.
    destruct (faults env Connect); [left; repeat split|].
    destruct (faults env Select); left; repeat split.
  - rewrite get_meter_readings_unfold.
    destruct (faults env Connect); [left; repeat split|].
    destruct (faults env Select); left; repeat split.
Qed.

Lemma run_requests_invariant (P : Store -> Prop) :
  (forall db rq, P db -> P (handle db rq)) ->
  forall db rqs, P db -> P (run_requests db rqs).
Proof.
  intros Hstep db rqs. revert db.
  induction rqs as [|rq rqs IH]; intros db H; [exact H|].
  rewrite run_requests_cons. apply IH, Hstep, H.
Qed.

Lemma handle_readings_prefix db rq :
  meter_readings db `prefix_of` meter_readings (handle db rq).
Proof.
  destruct (handle_effect db rq) as [(-> & _ & _)|(env & data & dt & _ & _ & ->)];
    [reflexivity|].
  cbn. now apply prefix_app_r.
Qed.

(** X3: readings are only ever appended. Whatever requests are served, the
    readings the store held are still there afterwards, row for row and in
    the same places; nothing is updated or deleted. *)
Theorem readings_append_only (db : Store) (rqs : list request) :
  meter_readings db `prefix_of` meter_readings (run_requests db rqs) /\
  (forall i r, meter_readings db !! i = Some r ->
     meter_readings (run_requests db rqs) !! i = Some r) /\
  (length (meter_readings db) <= length (meter_readings (run_requests db rqs)))%nat.
Proof.
  assert (Hp : meter_readings db `prefix_of` meter_readings (run_requests db rqs)).
  { revert db. induction rqs as [|rq rqs IH]; intros db; [reflexivity|].
    rewrite run_requests_cons. etransitivity; [apply handle_readings_prefix|apply IH]. }
  split; [exact Hp|]. split.
  - intros i r Hi. eapply prefix_lookup_Some; eassumption.
  - now apply prefix_length.
Qed.

Lemma handle_ids_increasing db rq :
  reading_ids_increasing db -> reading_ids_increasing (handle db rq).
Proof.
  unfold reading_ids_increasing. intros [Hs Hb].
  destruct (handle_effect db rq) as [(-> & -> & _)|(env & data & dt & _ & _ & ->)];
    [split; assumption|].
  cbn [meter_readings readings_seq upsert_meter_status insert_reading]. split.
  - rewrite fmap_app. apply StronglySorted_app. split; [|split].
    + intros x1 x2 Hx1 Hx2. apply list_elem_of_singleton in Hx2 as ->.
      apply list_elem_of_fmap in Hx1 as (r & -> & Hr).
      rewrite Forall_forall in Hb. specialize (Hb r Hr). cbn. lia.
    + exact Hs.
    + repeat constructor.
  - apply Forall_app. split.
    + eapply Forall_impl; [exact Hb|]. cbn. intros r Hr. lia.
    + constructor; [cbn; lia|constructor].
Qed.

Lemma StronglySorted_lt_NoDup (l : list Z) : StronglySorted Z.lt l -> NoDup l.
Proof.
  induction 1 as [|x l Hs IH Hx]; [apply NoDup_nil_2|].
  apply NoDup_cons. split; [|exact IH].
  intros Hin. rewrite Forall_forall in Hx. specialize (Hx x Hin). lia.
Qed.

(** X4: the AUTOINCREMENT keys of the readings stay in order. If they
    increase down the table and none exceeds the counter, the same holds
    after any sequence of requests; in particular no two readings ever share
    an id, and every successful ingestion gets an id above all earlier
    ones. *)
Theorem reading_ids_stay_increasing (db : Store) (rqs : list request) :
  reading_ids_increasing db ->
  reading_ids_increasing (run_requests db rqs) /\
  NoDup (r_id <$> meter_readings (run_requests db rqs)).
Proof.
  intros H.
  assert (H' : reading_ids_increasing (run_requests db rqs))
    by (apply (run_requests_invariant reading_ids_increasing);
        [apply handle_ids_increasing|exact H]).
  split; [exact H'|]. apply StronglySorted_lt_NoDup, H'.
Qed.

(** Three ingestions from the empty store, one of them failing. *)
Lemma reading_ids_stay_increasing_witness :
  r_id <$> meter_readings
             (run_requests empty_store
                [Startup sample_now; PostMeterData sample_env sample_payload;
                 PostMeterData failing_upsert_env sample_payload;
                 PostMeterData sample_env newer_payload]) = [1; 2] /\
  NoDup (r_id <$> meter_readings
                    (run_requests empty_store
                       [Startup sample_now; PostMeterData sample_env sample_payload;
                        PostMeterData failing_upsert_env sample_payload;
                        PostMeterData sample_env newer_payload])).
Proof.
  split; [vm_compute; reflexivity|].
  apply (reading_ids_stay_increasing empty_store).
  split; [constructor|constructor].
Defined.

Lemma handle_status_matches_readings db rq :
  status_matches_readings db -> status_matches_readings (handle db rq).
Proof.
  unfold status_matches_readings. intros H.
  destruct (handle_effect db rq) as [(-> & _ & ->)|(env & data & dt & _ & _ & ->)];
    [exact H|].
  cbn [meter_readings meter_status upsert_meter_status insert_reading].
  intros mid. rewrite upsert_status_keys, fmap_app, elem_of_app.
  cbn [fmap list_fmap reading_row r_meter_id].
  rewrite list_elem_of_singleton.
  case_decide as Hin.
  - rewrite H. split; [now left|]. intros [?| ->]; [assumption|]. now apply H.
  - rewrite elem_of_app, list_elem_of_singleton, H. reflexivity.
Qed.

(** X5: a meter has a status row exactly when it has a reading. The two
    writes of an ingestion land together or not at all, and nothing else
    writes either table, so the property carries over every request; it holds
    from the empty database on. *)
Theorem status_rows_follow_readings (db : Store) (rqs : list request) :
  status_matches_readings db ->
  status_matches_readings (run_requests db rqs).
Proof.
  apply (run_requests_invariant status_matches_readings).
  apply handle_status_matches_readings.
Qed.

(** From the empty database: a failed ingestion for [meter_777] leaves it
    with neither reading nor status row. *)
Lemma status_rows_follow_readings_witness :
  status_matches_readings
    (run_requests empty_store
       [Startup sample_now; PostMeterData sample_env sample_payload;
        PostMeterData failing_upsert_env stray_payload]).
Proof.
  apply (status_rows_follow_readings empty_store).
  intros mid. cbn. reflexivity.
Defined.

(** ** Stored timestamps and their order *)

Lemma ascii_compare_digit a b :
  0 <= a <= 9 -> 0 <= b <= 9 ->
  (digit_char a ?= digit_char b)%char = (a ?= b).
Proof.
  intros Ha Hb.
  assert (Ha' : a = 0 \/ a = 1 \/ a = 2 \/ a = 3 \/ a = 4 \/ a = 5 \/ a = 6 \/
                a = 7 \/ a = 8 \/ a = 9) by lia.
  assert (Hb' : b = 0 \/ b = 1 \/ b = 2 \/ b = 3 \/ b = 4 \/ b = 5 \/ b = 6 \/
                b = 7 \/ b = 8 \/ b = 9) by lia.
  repeat (destruct Ha' as [->|Ha']);
    repeat (destruct Hb' as [->|Hb']); subst; reflexivity.
Qed.

(** Comparing high part first. *)
Lemma compare_lex p hi1 lo1 hi2 lo2 :
  0 <= lo1 < p -> 0 <= lo2 < p ->
  (lo1 + p * hi1 ?= lo2 + p * hi2)
  = match hi1 ?= hi2 with Eq => lo1 ?= lo2 | c => c end.
Proof.
  intros H1 H2. destruct (Z.compare_spec hi1 hi2) as [->|Hlt|Hgt].
  - destruct (Z.compare_spec lo1 lo2);
      [apply Z.compare_eq_iff | apply Z.compare_lt_iff | apply Z.compare_gt_iff]; lia.
  - apply Z.compare_lt_iff. nia.
  - apply Z.compare_gt_iff. nia.
Qed.

Lemma compare_fmt_digits n a b :
  (fmt_digits n a ?= fmt_digits n b)%string
  = (a mod 10 ^ Z.of_nat n ?= b mod 10 ^ Z.of_nat n).
Proof.
  induction n as [|k IH].
  - cbn. now rewrite !Z.mod_1_r.
  - cbn [fmt_digits String.compare].
    rewrite ascii_compare_digit
      by (pose proof (Z.mod_pos_bound (a / 10 ^ Z.of_nat k) 10);
          pose proof (Z.mod_pos_bound (b / 10 ^ Z.of_nat k) 10); lia).
    rewrite IH, Nat2Z.inj_succ, Z.pow_succ_r by lia.
    rewrite !(Z.mul_comm 10), !Z.rem_mul_r by lia.
    rewrite compare_lex by (apply Z.mod_pos_bound; lia).
    reflexivity.
Qed.

Lemma compare_fmt_digits_small n a b :
  0 <= a < 10 ^ Z.of_nat n -> 0 <= b < 10 ^ Z.of_nat n ->
  (fmt_digits n a ?= fmt_digits n b)%string = (a ?= b).
Proof. intros Ha Hb. now rewrite compare_fmt_digits, !Z.mod_small. Qed.

Lemma compare_append_same_length p1 p2 s1 s2 :
  String.length p1 = String.length p2 ->
  (p1 +:+ s1 ?= p2 +:+ s2)%string
  = match (p1 ?= p2)%string with Eq => (s1 ?= s2)%string | c => c end.
Proof.
  revert p2. induction p1 as [|c1 p1 IH]; intros [|c2 p2] Hlen;
    try discriminate; [reflexivity|].
  rewrite !append_String. cbn [String.compare].
  destruct (c1 ?= c2)%char; try reflexivity.
  apply IH. now injection Hlen.
Qed.

(** A field and its separator, against the same of another timestamp. *)
Lemma compare_field n a b sep s1 s2 :
  0 <= a < 10 ^ Z.of_nat n -> 0 <= b < 10 ^ Z.of_nat n ->
  (fmt_digits n a +:+ String sep "" +:+ s1 ?= fmt_digits n b +:+ String sep "" +:+ s2)%string
  = match a ?= b with Eq => (s1 ?= s2)%string | c => c end.
Proof.
  intros Ha Hb.
  rewrite compare_append_same_length by now rewrite !length_fmt_digits.
  rewrite compare_fmt_digits_small by assumption.
  destruct (a ?= b); try reflexivity.
  rewrite compare_append_same_length by reflexivity.
  cbn [String.compare]. now rewrite ascii_compare_refl.
Qed.

Lemma civil_key_compare a b :
  check_fields a = true -> check_fields b = true ->
  (iso_seconds a ?= iso_seconds b)%string = (civil_key a ?= civil_key b).
Proof.
  intros Ha Hb.
  pose proof (check_fields_bounds a Ha) as (? & ? & ? & ? & ? & ? & _).
  pose proof (check_fields_bounds b Hb) as (? & ? & ? & ? & ? & ? & _).
  unfold iso_seconds, civil_key.
  rewrite !compare_field by (cbn; lia).
  rewrite compare_fmt_digits_small by (cbn; lia).
  rewrite !(Z.add_comm (_ * 100)), !(Z.mul_comm _ 100).
  rewrite !compare_lex by lia.
  repeat match goal with |- context [?x ?= ?y] => destruct (x ?= y) eqn:? end;
    congruence.
Qed.

Lemma timestamp_key_iso_seconds dt :
  check_fields dt = true -> timestamp_key (iso_seconds dt) = Some (civil_key dt).
Proof.
  intros H. unfold timestamp_key. now rewrite (fromisoformat_iso_seconds dt H).
Qed.

Lemma length_iso_seconds dt : String.length (iso_seconds dt) = 19%nat.
Proof.
  unfold iso_seconds.
  repeat (rewrite length_string_append || rewrite length_fmt_digits). reflexivity.
Qed.

Lemma text_le_iso_seconds a b :
  check_fields a = true -> check_fields b = true ->
  text_le (iso_seconds a) (iso_seconds b) <-> civil_key a <= civil_key b.
Proof.
  intros Ha Hb. unfold text_le, String.leb. rewrite (civil_key_compare a b Ha Hb).
  destruct (Z.compare_spec (civil_key a) (civil_key b)); split; intros; try lia;
    try reflexivity; discriminate.
Qed.

(** An ingestion whose timestamp has a year of four digits keeps the stored
    timestamps in shape. *)
Lemma handle_timestamps_canonical db rq :
  four_digit_year rq ->
  timestamps_canonical db -> timestamps_canonical (handle db rq).
Proof.
  unfold timestamps_canonical. intros Hy H.
  destruct (handle_effect db rq) as [(-> & _ & _)|(env & data & dt & -> & Hdt & ->)];
    [exact H|].
  cbn [meter_readings upsert_meter_status insert_reading].
  apply Forall_app. split; [exact H|]. constructor; [|constructor].
  pose proof (fromisoformat_checked _ _ Hdt) as Hok.
  pose proof (check_fields_bounds dt Hok) as (Hyear & _).
  exists dt. split; [exact Hok|].
  cbn [r_timestamp reading_row]. apply strftime_iso_seconds.
  specialize (Hy dt Hdt). lia.
Qed.

Lemma run_requests_timestamps_canonical db rqs :
  timestamps_canonical db ->
  Forall four_digit_year rqs ->
  timestamps_canonical (run_requests db rqs).
Proof.
  revert db. induction rqs as [|rq rqs IH]; intros db H Hy; [exact H|].
  rewrite run_requests_cons. apply Forall_cons in Hy as [Hrq Hy].
  apply IH; [|exact Hy]. now apply handle_timestamps_canonical.
Qed.

(** Rows in the order of ORDER BY timestamp DESC, all of the fixed-width
    shape, are in the order of their dates and times, newest first. *)
Lemma sorted_rows_keys (rows : list MeterReading) :
  Forall (fun r => canonical_timestamp (r_timestamp r)) rows ->
  StronglySorted newer_first rows ->
  exists ks,
    (fun r => timestamp_key (r_timestamp r)) <$> rows = Some <$> ks /\
    StronglySorted (fun k1 k2 => k2 <= k1) ks /\
    (forall k r, timestamp_key (r_timestamp r) = Some k ->
       Forall (newer_first r) rows -> canonical_timestamp (r_timestamp r) ->
       Forall (fun k' => k' <= k) ks).
Proof.
  induction rows as [|x rows IH]; intros Hc Hs.
  - exists []. split; [reflexivity|]. split; constructor.
  - apply Forall_cons in Hc as [(a & Ha & Hx) Hc].
    apply StronglySorted_inv in Hs as [Hs Hall].
    destruct (IH Hc Hs) as (ks & Hks & Hsorted & Hbelow).
    exists (civil_key a :: ks). split; [|split].
    + rewrite !fmap_cons, Hks, Hx, (timestamp_key_iso_seconds a Ha). reflexivity.
    + constructor; [exact Hsorted|].
      apply (Hbelow (civil_key a) x); [|exact Hall|now exists a].
      rewrite Hx. now apply timestamp_key_iso_seconds.
    + intros k r Hk Hr (b & Hb & Hrb).
      apply Forall_cons in Hr as [Hrx Hr].
      constructor; [|apply (Hbelow k r Hk Hr); now exists b].
      unfold newer_first in Hrx. rewrite Hx, Hrb in Hrx.
      rewrite Hrb, (timestamp_key_iso_seconds b Hb) in Hk. injection Hk as <-.
      now apply text_le_iso_seconds.
Qed.

(** X6: as long as the payloads carry years of four digits, every stored
    timestamp has the fixed shape ["YYYY-MM-DD HH:MM:SS"]: it is 19
    characters long and reads back as a date and time, and every readings
    response lists its entries by date and time, newest first. Years below
    1000 are written with fewer digits and are left out. *)
Theorem stored_timestamps_stay_canonical (db : Store) (rqs : list request) :
  timestamps_canonical db ->
  Forall four_digit_year rqs ->
  timestamps_canonical (run_requests db rqs) /\
  (forall r, r ∈ meter_readings (run_requests db rqs) ->
     String.length (r_timestamp r) = 19%nat /\
     is_Some (timestamp_key (r_timestamp r))) /\
  (forall env mid hours,
     exists ks,
       entry_key <$> response_readings
                       (get_meter_readings env mid hours (run_requests db rqs)).1
       = Some <$> ks /\
       StronglySorted (fun k1 k2 => k2 <= k1) ks).
Proof.
  intros H Hy.
  pose proof (run_requests_timestamps_canonical db rqs H Hy) as H'.
  set (db' := run_requests db rqs) in *.
  unfold timestamps_canonical in H'. rewrite Forall_forall in H'.
  split; [now apply Forall_forall|]. split.
  - intros r Hr. destruct (H' r Hr) as (dt & Hok & ->).
    split; [apply length_iso_seconds|].
    rewrite (timestamp_key_iso_seconds dt Hok). eauto.
  - intros env mid hours.
    destruct (faults env Connect) as [m1|] eqn:Hc.
    { exists []. rewrite get_meter_readings_unfold, Hc. split; [reflexivity|constructor]. }
    destruct (faults env Select) as [m2|] eqn:Hsel.
    { exists []. rewrite get_meter_readings_unfold, Hc, Hsel.
      split; [reflexivity|constructor]. }
    rewrite response_readings_rows by assumption.
    set (rows := select_reading_rows mid (datetime_now_minus_hours (db_now env) hours) db').
    destruct (sorted_rows_keys rows) as (ks & Hks & Hsorted & _).
    + apply Forall_forall. intros r Hr.
      apply elem_of_select_reading_rows in Hr as [_ Hr]. now apply H'.
    + apply select_reading_rows_sorted.
    + exists ks. split; [|exact Hsorted].
      rewrite <- Hks, <- !list_fmap_compose. apply list_fmap_ext.
      intros i r _. reflexivity.
Qed.

(** From the empty database, with an offset timestamp among the payloads. *)
Lemma stored_timestamps_stay_canonical_witness :
  timestamps_canonical
    (run_requests empty_store
       [PostMeterData sample_env sample_payload; PostMeterData sample_env offset_payload]).
Proof.
  apply (stored_timestamps_stay_canonical empty_store).
  - constructor.
  - repeat constructor; intros dt Hdt; vm_compute in Hdt; injection Hdt as <-;
      cbn; lia.
Defined.

(** A payload of the year 999 is stored under a text of 18 characters that
    reads back as no date, and that compares as newer than every date of
    this century. *)
Example three_digit_year_breaks_shape :
  ~ four_digit_year (PostMeterData sample_env early_payload) /\
  parse_timestamp (timestamp early_payload) = Ok "999-12-31 23:59:59" /\
  timestamp_key "999-12-31 23:59:59" = None /\
  text_le "2099-12-31 23:59:59" "999-12-31 23:59:59".
Proof.
  split; [|split; [|split]]; try (vm_compute; reflexivity).
  intros H.
  specialize (H (mk_datetime 999 12 31 23 59 59 0 (Some 0)) ltac:(vm_compute; reflexivity)).
  cbn in H. lia.
Qed.

(** X7: on timestamps of that shape the text order the queries use (WHERE
    timestamp >= ..., ORDER BY timestamp) is the order of date and time:
    one text is at most another exactly when its year, month, day, hour,
    minute and second, read as one number, are. *)
Theorem text_order_is_time_order (ts1 ts2 : string) :
  canonical_timestamp ts1 ->
  canonical_timestamp ts2 ->
  exists k1 k2,
    timestamp_key ts1 = Some k1 /\ timestamp_key ts2 = Some k2 /\
    (text_le ts1 ts2 <-> k1 <= k2) /\
    (ts1 = ts2 <-> k1 = k2).
Proof.
  intros (a & Ha & ->) (b & Hb & ->).
  exists (civil_key a), (civil_key b).
  split; [now apply timestamp_key_iso_seconds|].
  split; [now apply timestamp_key_iso_seconds|].
  pose proof (civil_key_compare a b Ha Hb) as Hcmp. split.
  - unfold text_le, String.leb. rewrite Hcmp.
    destruct (Z.compare_spec (civil_key a) (civil_key b)); split; intros; try lia;
      try reflexivity; discriminate.
  - split.
    + intros Heq. apply Z.compare_eq_iff. rewrite <- Hcmp, Heq.
      apply string_compare_refl.
    + intros Heq. apply String.compare_eq_iff. rewrite Hcmp.
      now apply Z.compare_eq_iff.
Qed.

(** The last second of one year against the first of the next. *)
Lemma text_order_is_time_order_witness :
  text_le "2023-12-31 23:59:59" "2024-01-01 00:00:00" <-> 20231231235959 <= 20240101000000.
Proof.
  destruct (text_order_is_time_order "2023-12-31 23:59:59" "2024-01-01 00:00:00")
    as (k1 & k2 & H1 & H2 & H3 & _).
  - exists (mk_datetime 2023 12 31 23 59 59 0 None). split; reflexivity.
  - exists (mk_datetime 2024 1 1 0 0 0 0 None). split; reflexivity.
  - vm_compute in H1, H2. injection H1 as <-. injection H2 as <-. exact H3.
Defined.

(** ** Failing queries *)

(** X8: the two query handlers never write and never raise. When
    [sqlite3.connect] or the SELECT fails they answer with the same
    [status]/[message] dict as the ingestion, carrying the message of the
    failure, instead of their usual shape: a failed listing has no [meters]
    key, a failed readings query no [readings] key, and an answer that went
    through has no [status] key. *)
Theorem query_failures_are_reported (env : Env) (mid : string) (hours : Z) (db : Store) :
  (get_meters env db).2 = db /\
  (get_meter_readings env mid hours db).2 = db /\
  (forall msg,
      faults env Connect = Some msg \/
      (faults env Connect = None /\ faults env Select = Some msg) ->
      (get_meters env db).1 = Ok (error_response (SqliteError msg)) /\
      (get_meter_readings env mid hours db).1 = Ok (error_response (SqliteError msg))) /\
  (exists r1 r2,
      (get_meters env db).1 = Ok r1 /\
      (get_meter_readings env mid hours db).1 = Ok r2 /\
      (is_Some (py_get "meters" r1) <->
       faults env Connect = None /\ faults env Select = None) /\
      (is_Some (py_get "readings" r2) <->
       faults env Connect = None /\ faults env Select = None) /\
      (py_get "status" r1 = Some (PyStr "error") <-> py_get "meters" r1 = None) /\
      (py_get "status" r2 = Some (PyStr "error") <-> py_get "readings" r2 = None)).
Proof.
  rewrite get_meters_unfold, get_meter_readings_unfold.
  destruct (faults env Connect) as [m1|] eqn:Hc;
    [|destruct (faults env Select) as [m2|] eqn:Hs]; cbn [fst snd].
  - split; [reflexivity|]. split; [reflexivity|]. split.
    + intros msg [[= <-]|[[=] _]]. split; reflexivity.
    + eexists _, _. split; [reflexivity|]. split; [reflexivity|]. cbn.
      split; [|split; [|split]].
      * split; [intros [x Hx]|intros [Hx _]]; discriminate.
      * split; [intros [x Hx]|intros [Hx _]]; discriminate.
      * split; reflexivity.
      * split; reflexivity.
  - split; [reflexivity|]. split; [reflexivity|]. split.
    + intros msg [[=]|[_ [= <-]]]. split; reflexivity.
    + eexists _, _. split; [reflexivity|]. split; [reflexivity|]. cbn.
      split; [|split; [|split]].
      * split; [intros [x Hx]|intros [_ Hx]]; discriminate.
      * split; [intros [x Hx]|intros [_ Hx]]; discriminate.
      * split; reflexivity.
      * split; reflexivity.
  - split; [reflexivity|]. split; [reflexivity|]. split.
    + intros msg [[=]|[_ [=]]].
    + eexists _, _. split; [reflexivity|]. split; [reflexivity|]. cbn.
      split; [|split; [|split]].
      * split; [intros _; split; reflexivity|intros _; eauto].
      * split; [intros _; split; reflexivity|intros _; eauto].
      * split; discriminate.
      * split; discriminate.
Qed.

(** ** Ingestion and the listing *)

Lemma response_meters_entries env db :
  faults env Connect = None ->
  faults env Select = None ->
  response_meters (get_meters env db).1
  = joined_entry <$> filter (fun j : Meter * option MeterStatus =>
                               m_is_active j.1 = Some true) (left_join_status db).
Proof.
  intros Hc Hs. rewrite get_meters_unfold, Hc, Hs. cbn [fst response_meters py_get assoc].
  cbn. apply meter_entries_joined.
Qed.

Lemma response_meters_faulty env db :
  faults env Connect <> None \/ faults env Select <> None ->
  response_meters (get_meters env db).1 = [].
Proof.
  intros H. rewrite get_meters_unfold.
  destruct (faults env Connect); [reflexivity|].
  destruct (faults env Select); [reflexivity|]. destruct H; congruence.
Qed.

(** Every listed entry is the entry of a meter of the table. *)
Lemma response_meters_from_table env db e :
  e ∈ response_meters (get_meters env db).1 ->
  exists m, m ∈ meters db /\ m_is_active m = Some true /\
            py_get "meter_id" e = Some (PyStr (m_id m)).
Proof.
  destruct (faults env Connect) as [m1|] eqn:Hc.
  { rewrite response_meters_faulty by (left; congruence).
    intros H. now apply elem_of_nil in H. }
  destruct (faults env Select) as [m2|] eqn:Hs.
  { rewrite response_meters_faulty by (right; congruence).
    intros H. now apply elem_of_nil in H. }
  rewrite response_meters_entries by assumption.
  intros ([m ost] & -> & Hj)%list_elem_of_fmap.
  apply list_elem_of_filter in Hj as [Hact Hj].
  apply elem_of_left_join in Hj as [Hm _].
  exists m. split; [assumption|]. split; [assumption|reflexivity].
Qed.

(** X9: ingestion does not ask whether the meter is registered. A payload
    from a meter that is not in [meters] is accepted all the same: its
    reading and an online status row are stored, [meters] is left as it was
    (ingestion never registers a meter), and the meter listing does not
    show it. *)
Theorem unregistered_meter_is_stored_not_listed (env env' : Env) (data : MeterData)
    (db : Store) (dt : datetime) :
  (forall st, faults env st = None) ->
  fromisoformat (replace_Z (timestamp data)) = Some dt ->
  meter_id data ∉ m_id <$> meters db ->
  (receive_meter_data env data db).1 = Ok success_response /\
  meters (receive_meter_data env data db).2 = meters db /\
  reading_row (readings_seq db + 1) data (strftime dt)
    ∈ meter_readings (receive_meter_data env data db).2 /\
  (exists st, st ∈ meter_status (receive_meter_data env data db).2 /\
              s_meter_id st = meter_id data /\ s_online st = Some true) /\
  (forall e, e ∈ response_meters
                   (get_meters env' (receive_meter_data env data db).2).1 ->
     py_get "meter_id" e <> Some (PyStr (meter_id data))).
Proof.
  intros Hf Hdt Hnew.
  rewrite receive_meter_data_unfold, (first_exception_no_faults _ _ Hf),
    (parse_timestamp_ok _ _ Hdt). cbn [fst snd].
  split; [reflexivity|]. split; [reflexivity|]. split; [|split].
  - cbn. apply elem_of_app. right. apply list_elem_of_here.
  - destruct (upsert_status_writes (meter_id data) (strftime (utcnow env))
                (sqlite_datetime (db_now env)) (meter_status db))
      as (i & st & Hi & Hk & Hon & _).
    exists st. split; [|split; assumption].
    cbn. now apply list_elem_of_lookup_2 in Hi.
  - intros e He Hid.
    apply response_meters_from_table in He as (m & Hm & _ & Hid').
    rewrite Hid' in Hid. injection Hid as Hid. apply Hnew.
    rewrite <- Hid. now apply list_elem_of_fmap_2.
Qed.

(** [meter_777] reports once; the listing still shows the four sample
    meters only. *)
Lemma unregistered_meter_is_stored_not_listed_witness :
  (exists st, st ∈ meter_status (receive_meter_data sample_env stray_payload sample_store).2 /\
              s_meter_id st = "meter_777" /\ s_online st = Some true) /\
  (forall e, e ∈ response_meters
                   (get_meters sample_env
                      (receive_meter_data sample_env stray_payload sample_store).2).1 ->
     py_get "meter_id" e <> Some (PyStr "meter_777")).
Proof.
  destruct (unregistered_meter_is_stored_not_listed sample_env sample_env stray_payload
              sample_store (mk_datetime 2024 6 1 9 0 0 0 (Some 0)))
    as (_ & _ & _ & H4 & H5).
  - reflexivity.
  - reflexivity.
  - vm_compute. intros H.
    repeat (inversion H as [|? ? ? H']; subst; clear H; rename H' into H).
  - split; [exact H4|exact H5].
Defined.

(** X10: after a successful ingestion for a registered, active meter, the
    meter listing shows that meter online, with the wall clock of the
    ingestion as [last_update]. *)
Theorem ingested_meter_is_listed_online (env env' : Env) (data : MeterData)
    (db : Store) (dt : datetime) (m : Meter) :
  (forall st, faults env st = None) ->
  fromisoformat (replace_Z (timestamp data)) = Some dt ->
  m ∈ meters db -> m_id m = meter_id data -> m_is_active m = Some true ->
  faults env' Connect = None -> faults env' Select = None ->
  PyDict [("meter_id", PyStr (meter_id data));
          ("online", PyBool true);
          ("last_update", PyStr (strftime (utcnow env)))]
    ∈ response_meters (get_meters env' (receive_meter_data env data db).2).1.
Proof.
  intros Hf Hdt Hm Hid Hact Hc Hs.
  rewrite receive_meter_data_unfold, (first_exception_no_faults _ _ Hf),
    (parse_timestamp_ok _ _ Hdt). cbn [snd].
  rewrite response_meters_entries by assumption.
  destruct (upsert_status_writes (meter_id data) (strftime (utcnow env))
              (sqlite_datetime (db_now env)) (meter_status db))
    as (i & st & Hi & Hk & Hon & Hlu).
  assert (Hentry : joined_entry (m, Some st)
                   = PyDict [("meter_id", PyStr (meter_id data));
                             ("online", PyBool true);
                             ("last_update", PyStr (strftime (utcnow env)))]).
  { unfold joined_entry. cbn [fst snd]. now rewrite Hid, Hon, Hlu. }
  rewrite <- Hentry. apply list_elem_of_fmap_2, list_elem_of_filter.
  split; [exact Hact|]. apply elem_of_left_join. split; [exact Hm|].
  split; [|congruence]. cbn. now apply list_elem_of_lookup_2 in Hi.
Qed.

(** The example of the specification, then a listing. *)
Lemma ingested_meter_is_listed_online_witness :
  PyDict [("meter_id", PyStr "meter_001"); ("online", PyBool true);
          ("last_update", PyStr "2024-06-01 10:00:00")]
    ∈ response_meters
        (get_meters sample_env
           (receive_meter_data sample_env sample_payload sample_store).2).1.
Proof.
  apply (ingested_meter_is_listed_online sample_env sample_env sample_payload
           sample_store (mk_datetime 2024 1 1 12 0 0 0 (Some 0))
           (mk_Meter "meter_001" (Some "Primary energy meter")
              (Some "2024-06-01 10:00:00") (Some true)));
    try reflexivity.
  vm_compute. apply list_elem_of_here.
Defined.

(** X11: nothing removes duplicates. The same payload ingested twice is
    stored twice, as two rows that differ in their id only, while the status
    table still holds one row for the meter, stamped by the second call. *)
Theorem resent_payload_is_stored_twice (env1 env2 : Env) (data : MeterData)
    (db : Store) (dt : datetime) :
  (forall st, faults env1 st = None) ->
  (forall st, faults env2 st = None) ->
  fromisoformat (replace_Z (timestamp data)) = Some dt ->
  status_keys_unique db ->
  meter_readings (receive_meter_data env2 data (receive_meter_data env1 data db).2).2
  = (meter_readings db ++
     [reading_row (readings_seq db + 1) data (strftime dt);
      reading_row (readings_seq db + 2) data (strftime dt)])%list /\
  exists st,
    status_rows (meter_id data)
      (receive_meter_data env2 data (receive_meter_data env1 data db).2).2 = [st] /\
    s_online st = Some true /\
    s_last_update st = Some (strftime (utcnow env2)).
Proof.
  intros Hf1 Hf2 Hdt Hu.
  rewrite !receive_meter_data_unfold, (first_exception_no_faults _ _ Hf1),
    (first_exception_no_faults _ _ Hf2), (parse_timestamp_ok _ _ Hdt).
  cbn [snd]. split.
  - cbn. rewrite <- app_assoc. cbn. do 3 f_equal. f_equal. lia.
  - unfold status_rows. cbn [meter_status upsert_meter_status insert_reading].
    set (tbl1 := upsert_status (meter_id data) true (strftime (utcnow env1))
                   (sqlite_datetime (db_now env1)) (meter_status db)).
    assert (Hu1 : NoDup (s_meter_id <$> tbl1)) by now apply upsert_status_NoDup.
    pose proof (upsert_status_row (meter_id data) (strftime (utcnow env2))
                  (sqlite_datetime (db_now env2)) tbl1 Hu1) as Hrow.
    destruct (filter (fun st => s_meter_id st = meter_id data) tbl1) as [|old olds];
      destruct Hrow as [_ Hrow]; eexists; (split; [exact Hrow|]); split; reflexivity.
Qed.

(** The sample payload, sent again a while later. *)
Lemma resent_payload_is_stored_twice_witness :
  r_id <$> meter_readings
             (receive_meter_data sample_env sample_payload
                (receive_meter_data sample_env sample_payload sample_store).2).2
  = [1; 2].
Proof.
  rewrite (proj1 (resent_payload_is_stored_twice sample_env sample_env sample_payload
                    sample_store (mk_datetime 2024 1 1 12 0 0 0 (Some 0))
                    (fun _ => eq_refl) (fun _ => eq_refl) eq_refl NoDup_nil_2)).
  reflexivity.
Defined.

(** ** The readings response *)

(** X13: a readings query returns all the readings of its window when there
    are at most 100, and exactly 100 when there are more. *)
Theorem readings_count (env : Env) (mid : string) (hours : Z) (db : Store) :
  faults env Connect = None ->
  faults env Select = None ->
  length (response_readings (get_meter_readings env mid hours db).1)
  = min 100 (length (filter (in_window mid (datetime_now_minus_hours (db_now env) hours))
                            (meter_readings db))).
Proof.
  intros Hc Hs. rewrite response_readings_rows by assumption.
  rewrite !length_fmap. unfold select_reading_rows. rewrite length_take.
  f_equal. apply Permutation_length, merge_sort_Permutation.
Qed.

(** A hundred and one readings in the window, a hundred in the answer. *)
Lemma readings_count_witness :
  length (response_readings
            (get_meter_readings sample_env "meter_001" 100000
               (receive_meter_data sample_env sample_payload crowded_store).2).1)
  = 100%nat.
Proof.
  rewrite (readings_count sample_env "meter_001" 100000 _ eq_refl eq_refl).
  vm_compute. reflexivity.
Defined.

(** X14: meters do not interfere. An ingestion for one meter, successful or
    not, leaves the answer to every readings query for any other meter as it
    was. *)
Theorem readings_of_other_meters_unchanged (env env' : Env) (data : MeterData)
    (mid : string) (hours : Z) (db : Store) :
  mid <> meter_id data ->
  (get_meter_readings env' mid hours (receive_meter_data env data db).2).1
  = (get_meter_readings env' mid hours db).1.
Proof.
  intros Hne. rewrite receive_meter_data_unfold.
  destruct (first_exception env data); [reflexivity|].
  destruct (parse_timestamp (timestamp data)) as [dt|]; [|reflexivity].
  cbn [snd]. rewrite !get_meter_readings_unfold.
  destruct (faults env' Connect); [reflexivity|].
  destruct (faults env' Select); [reflexivity|].
  cbn [fst]. unfold select_readings, select_reading_rows.
  cbn [meter_readings upsert_meter_status insert_reading].
  rewrite filter_app, filter_cons_False, filter_nil, app_nil_r; [reflexivity|].
  intros [Hm _]. cbn in Hm. congruence.
Qed.

(** [meter_002] is asked for after [meter_001] has reported. *)
Lemma readings_of_other_meters_unchanged_witness :
  (get_meter_readings sample_env "meter_002" 24
     (receive_meter_data sample_env sample_payload sample_store).2).1
  = Ok (PyDict [("meter_id", PyStr "meter_002"); ("readings", PyList [])]).
Proof.
  rewrite (readings_of_other_meters_unchanged sample_env sample_env sample_payload
             "meter_002" 24 sample_store).
  - reflexivity.
  - discriminate.
Defined.

(** ** The life of a status row *)

Lemma upsert_status_keeps_created mid lu created tbl i st :
  tbl !! i = Some st ->
  exists st', upsert_status mid true lu created tbl !! i = Some st' /\
              s_meter_id st' = s_meter_id st /\
              s_created_at st' = s_created_at st.
Proof.
  revert i. induction tbl as [|r rest IH]; intros i Hi; [discriminate|].
  rewrite upsert_status_cons. destruct (String.eqb (s_meter_id r) mid).
  - destruct i as [|i]; cbn in *.
    + injection Hi as <-. eexists. split; [reflexivity|]. split; reflexivity.
    + exists st. auto.
  - destruct i as [|i]; cbn in *.
    + injection Hi as <-. exists r. auto.
    + now apply IH.
Qed.

(** X15: a status row is for life. Once written it is never deleted or
    moved, it stays the row of the same meter, and its [created_at] keeps
    the value it got when the row was first inserted, whatever requests
    follow. *)
Theorem status_rows_are_permanent (db : Store) (rqs : list request) (i : nat)
    (st : MeterStatus) :
  meter_status db !! i = Some st ->
  exists st', meter_status (run_requests db rqs) !! i = Some st' /\
              s_meter_id st' = s_meter_id st /\
              s_created_at st' = s_created_at st.
Proof.
  revert db st. induction rqs as [|rq rqs IH]; intros db st Hi.
  - exists st. auto.
  - rewrite run_requests_cons.
    destruct (handle_status db rq) as [Heq|(env & data & _ & Heq)].
    + destruct (IH (handle db rq) st) as (st' & ? & ? & ?); [congruence|].
      exists st'. auto.
    + destruct (upsert_status_keeps_created (meter_id data) (strftime (utcnow env))
                  (sqlite_datetime (db_now env)) _ _ _ Hi) as (st1 & H1 & H2 & H3).
      destruct (IH (handle db rq) st1) as (st' & ? & ? & ?); [congruence|].
      exists st'. split; [assumption|]. split; congruence.
Qed.

(** The row written at 10:00 is rewritten an hour later and keeps its
    [created_at]. *)
Lemma status_rows_are_permanent_witness :
  exists st',
    meter_status
      (run_requests (receive_meter_data sample_env sample_payload sample_store).2
         [PostMeterData
            (mk_Env (mk_datetime 2024 6 1 11 0 0 0 None) (sample_now + 3600) no_faults)
            newer_payload]) !! 0%nat = Some st' /\
    s_created_at st' = Some "2024-06-01 10:00:00".
Proof.
  destruct (status_rows_are_permanent
              (receive_meter_data sample_env sample_payload sample_store).2
              [PostMeterData
                 (mk_Env (mk_datetime 2024 6 1 11 0 0 0 None) (sample_now + 3600) no_faults)
                 newer_payload]
              0%nat
              (mk_MeterStatus "meter_001" (Some true) (Some "2024-06-01 10:00:00")
                 (Some "2024-06-01 10:00:00")) eq_refl) as (st' & H1 & _ & H3).
  exists st'. split; [exact H1|exact H3].
Defined.
